(** * esp-alarm: request ingestion, response encoding and settings validation

    A shallow embedding of [alarm/HTTP.py], [alarm/utils.py] and
    [alarm/main.py].

    A [bytes] value is a [string], one character of the [string] for each
    byte.  A [str] is held as its UTF-8 encoding: [chunk.decode("utf-8")]
    checks the bytes, raises when the codec does not accept them and
    returns them as they are when it does; searching and splitting by an
    ASCII separator work on the encoding as they do on the text, and the two
    slices that the listener takes of a [str] count characters, not bytes.
    Python exceptions are values of [exn]; a computation that can raise
    returns a [result].  The listener threads the function's local variables,
    the state of the current connection and the trace of observable actions
    through a small state-and-exception monad [M].  Calls to the logging
    module only print and are left out, except [fatal], which also exits. *)

From Stdlib Require Import ZArith String Ascii List Bool Lia.
From Stdlib Require Import DecimalString.
From stdpp Require Import base gmap strings list.
Import ListNotations.
Local Open Scope Z_scope.

(** ** Exceptions and results *)

Inductive exit_reason :=
  | NoSettingsFile
  | RegexMismatch (key : string)
  | WrongType (key : string)
  | RequiredMissing (key : string)
  | RequiredBecause (key other : string).

Inductive exn :=
  | ValueError
  | IndexError
  | KeyError
  | TypeError
  | AttributeError
  | UnboundLocalError
  | UnicodeError
  | OSError
  | SystemExit (r : exit_reason).

Inductive result (A : Type) :=
  | Ok (a : A)
  | Raise (e : exn).
Arguments Ok {A} a.
Arguments Raise {A} e.

(** ** Python string primitives *)

Module Py.

Definition CR : ascii := "013"%char.
Definition LF : ascii := "010"%char.
Definition DQ : ascii := "034"%char.

(** [sub in s] *)
Fixpoint contains (sub s : string) : bool :=
  String.prefix sub s
  || match s with
     | EmptyString => false
     | String _ s' => contains sub s'
     end.

(** [s.split(sep)] for a non-empty [sep]: the pieces between the
    left-to-right, non-overlapping occurrences of [sep].  [skip] counts the
    characters of a matched separator that are still to be passed over. *)
Fixpoint split_go (sep : string) (skip : nat) (s : string) : list string :=
  match s with
  | EmptyString => [EmptyString]
  | String c s' =>
      match skip with
      | S k => split_go sep k s'
      | O =>
          if String.prefix sep s
          then EmptyString :: split_go sep (Nat.pred (String.length sep)) s'
          else match split_go sep O s' with
               | p :: ps => String c p :: ps
               | [] => [String c EmptyString]
               end
      end
  end.

Definition split (sep s : string) : list string := split_go sep O s.

(** The text without its first [n] bytes *)
Fixpoint drop (n : nat) (s : string) : string :=
  match n, s with
  | O, _ => s
  | S _, EmptyString => EmptyString
  | S n', String _ s' => drop n' s'
  end.

Definition byte_in (lo hi : N) (c : ascii) : bool :=
  let n := N_of_ascii c in (lo <=? n)%N && (n <=? hi)%N.

(** A byte that goes on with the character begun before it *)
Definition is_continuation (c : ascii) : bool := byte_in 128 191 c.

(** The bytes that go on with a character, and the text after them *)
Fixpoint continuation (s : string) : string :=
  match s with
  | EmptyString => EmptyString
  | String c s' => if is_continuation c then String c (continuation s') else EmptyString
  end.

Fixpoint after_continuation (s : string) : string :=
  match s with
  | EmptyString => EmptyString
  | String c s' => if is_continuation c then after_continuation s' else s
  end.

(** [s[0:n]] for a [str]: its first [n] characters *)
Fixpoint slice_to (n : nat) (s : string) : string :=
  match n with
  | O => EmptyString
  | S n' =>
      match s with
      | EmptyString => EmptyString
      | String c s' => String c (continuation s' +:+ slice_to n' (after_continuation s'))
      end
  end.

(** [s[n:]] for a [str]: the text after its first [n] characters *)
Fixpoint slice_from (n : nat) (s : string) : string :=
  match n with
  | O => s
  | S n' =>
      match s with
      | EmptyString => EmptyString
      | String _ s' => slice_from n' (after_continuation s')
      end
  end.

(** [s.replace(c, e)] for a one-character [c] and the empty string [e] *)
Fixpoint remove_char (c : ascii) (s : string) : string :=
  match s with
  | EmptyString => EmptyString
  | String d s' =>
      if Ascii.eqb c d then remove_char c s' else String d (remove_char c s')
  end.

Definition upper_char (c : ascii) : ascii :=
  let n := nat_of_ascii c in
  if (97 <=? n)%nat && (n <=? 122)%nat then ascii_of_nat (n - 32) else c.

(** [s.upper()] *)
Fixpoint upper (s : string) : string :=
  match s with
  | EmptyString => EmptyString
  | String c s' => String (upper_char c) (upper s')
  end.

(** ["{}".format(n)] for an integer [n] *)
Definition str_of_int (n : Z) : string := NilZero.string_of_int (Z.to_int n).

(** [l[i]] for a list and a non-negative or negative index *)
Definition index {A} (l : list A) (i : Z) : result A :=
  let j := if i <? 0 then i + Z.of_nat (length l) else i in
  if j <? 0 then Raise IndexError
  else match l !! Z.to_nat j with
       | Some x => Ok x
       | None => Raise IndexError
       end.

End Py.

Definition CRLF : string := String Py.CR (String Py.LF EmptyString).
Definition BLANK_LINE : string := CRLF +:+ CRLF.

(** ** JSON values, as [json.loads] returns them *)

#[local] Unset Elimination Schemes.
Inductive json :=
  | JNone
  | JBool (b : bool)
  | JInt (n : Z)
  | JFloat (literal : string)
  | JStr (s : string)
  | JList (l : list json)
  | JDict (d : list (string * json)).
#[local] Set Elimination Schemes.

Fixpoint assoc {A} (k : string) (d : list (string * A)) : option A :=
  match d with
  | [] => None
  | (k', v) :: d' => if String.eqb k k' then Some v else assoc k d'
  end.

(** [data[key]] for a string [key] *)
Definition subscript (data : json) (key : string) : result json :=
  match data with
  | JDict d =>
      match assoc key d with
      | Some v => Ok v
      | None => Raise KeyError
      end
  | _ => Raise TypeError
  end.

(** [v == s] for a string [s] *)
Definition json_eq_str (v : json) (s : string) : bool :=
  match v with
  | JStr t => String.eqb t s
  | _ => false
  end.

(** ** The library functions the program calls

    [json.loads], [re.compile(p).match], [int] and the [utf-8] codec belong
    to the Python runtime, not to this repository; the program is modelled
    over any runtime.  [None] stands for a raised exception.  [utf8_check]
    tells which byte strings the codec decodes; whatever it does with
    ill-formed bytes, it decodes the empty byte string. *)

Class Runtime := {
  json_loads : string -> option json;
  re_match : string -> string -> bool;
  int_of_str : string -> option Z;
  utf8_check : string -> bool;
  utf8_check_empty : utf8_check EmptyString = true
}.

(** [b.decode("utf-8")] *)
Definition decode {rt : Runtime} (b : string) : result string :=
  if utf8_check b then Ok b else Raise UnicodeError.

(** ** alarm/HTTP.py *)

Definition CODES : list (Z * string) :=
  [ (100, "Continue");
    (101, "Switching Protocols");
    (200, "OK");
    (201, "Created");
    (202, "Accepted");
    (203, "Non-Authoritative Information");
    (204, "No Content");
    (205, "Reset Content");
    (206, "Partial Content");
    (300, "Multiple Choices");
    (301, "Moved Permanently");
    (302, "Found");
    (303, "See Other");
    (304, "Not Modified");
    (305, "Use Proxy");
    (307, "Temporary Redirect");
    (400, "Bad Request");
    (401, "Unauthorized");
    (402, "Payment Required");
    (403, "Forbidden");
    (404, "Not Found");
    (405, "Method Not Allowed");
    (406, "Not Acceptable");
    (407, "Proxy Authentication Required");
    (408, "Request Timeout");
    (409, "Conflict");
    (410, "Gone");
    (411, "Length Required");
    (412, "Precondition Failed");
    (413, "Request Entity Too Large");
    (414, "Request-URI Too Long");
    (415, "Unsupported Media Type");
    (416, "Requested Range Not Satisfiable");
    (417, "Expectation Failed");
    (500, "Internal Server Error");
    (501, "Not Implemented");
    (502, "Bad Gateway");
    (503, "Service Unavailable");
    (504, "Gateway Timeout");
    (505, "HTTP Version Not Supported") ].

(** [CODES[code]]; [None] when [code not in CODES] *)
Fixpoint CODES_get (table : list (Z * string)) (code : Z) : option string :=
  match table with
  | [] => None
  | (c, reason) :: table' => if c =? code then Some reason else CODES_get table' code
  end.

(** [utils.getSubstringFromList]: the index of the first string of the list
    that contains [substring], [-1] when there is none. *)
Fixpoint getSubstringFromList_from (i : Z) (strings : list string) (substring : string) : Z :=
  match strings with
  | [] => -1
  | s :: strings' =>
      if Py.contains substring s then i
      else getSubstringFromList_from (i + 1) strings' substring
  end.

Definition getSubstringFromList (strings : list string) (substring : string) : Z :=
  getSubstringFromList_from 0 strings substring.

(** What the outside world sees of the listener: a connection is accepted,
    bytes are written to it, it is closed, and the buzzer collaborator
    [utils.alarm] is called.  [utils.alarm] toggles the pin in a loop that
    is timed by the clock of the board; the model keeps the call and its
    arguments and leaves the timing out. *)
Inductive event :=
  | Accept
  | Send (payload : string)
  | Close
  | Alarm (enabled_for on off : Z).

(** The local variables of [listen] that are not assigned on every path of
    an iteration ([None]: not yet bound), whether the current connection has
    been closed, and the actions so far, oldest first. *)
Record world := World {
  content_type : option string;
  data : option json;
  closed : bool;
  trace : list event
}.

Definition M (A : Type) : Type := world -> result A * world.

Definition ret {A} (a : A) : M A := fun w => (Ok a, w).
Definition raise {A} (e : exn) : M A := fun w => (Raise e, w).
Definition bind {A B} (m : M A) (k : A -> M B) : M B :=
  fun w =>
    match m w with
    | (Ok a, w') => k a w'
    | (Raise e, w') => (Raise e, w')
    end.
Definition lift {A} (r : result A) : M A := fun w => (r, w).

Notation "x <- m ;; k" := (bind m (fun x => k))
  (at level 100, m at next level, right associativity).
Notation "m ;;; k" := (bind m (fun _ => k))
  (at level 100, right associativity).

Definition emit (e : event) : M unit :=
  fun w => (Ok tt, World (content_type w) (data w) (closed w) (trace w ++ [e])%list).

Definition set_content_type (s : string) : M unit :=
  fun w => (Ok tt, World (Some s) (data w) (closed w) (trace w)).

Definition set_data (d : json) : M unit :=
  fun w => (Ok tt, World (content_type w) (Some d) (closed w) (trace w)).

Definition set_closed (b : bool) : M unit :=
  fun w => (Ok tt, World (content_type w) (data w) b (trace w)).

(** Reading a local variable that was never assigned raises. *)
Definition get_content_type : M string :=
  fun w => match content_type w with
           | Some s => (Ok s, w)
           | None => (Raise UnboundLocalError, w)
           end.

Definition get_data : M json :=
  fun w => match data w with
           | Some d => (Ok d, w)
           | None => (Raise UnboundLocalError, w)
           end.

(** [self._s.accept()]: a fresh, open connection. *)
Definition accept : M unit := set_closed false ;;; emit Accept.

(** [self._conn.send(payload)]: writing to a closed socket raises. *)
Definition conn_send (payload : string) : M unit :=
  fun w => if closed w then (Raise OSError, w) else emit (Send payload) w.

(** [self._conn.close()] *)
Definition conn_close : M unit :=
  fun w => if closed w then (Ok tt, w) else (emit Close ;;; set_closed true) w.

(** [utils.alarm(self._buzzer, enabled_for, on, off)] *)
Definition alarm (enabled_for on off : Z) : M unit := emit (Alarm enabled_for on off).

Definition status_line (code : Z) (reason : string) : string :=
  "HTTP/1.1 " +:+ Py.str_of_int code +:+ " " +:+ reason +:+ " " +:+ BLANK_LINE.

(** [HTTP._send] *)
Definition _send (code : Z) : M unit :=
  match CODES_get CODES code with
  | None => raise ValueError
  | Some reason => conn_send (status_line code reason) ;;; conn_close
  end.

(** The test that ends the read loop: [not chunk or chunk == b"\r\n" or
    b"\r\n" in chunk]. *)
Definition end_of_request (chunk : string) : bool :=
  String.eqb chunk EmptyString || String.eqb chunk CRLF || Py.contains CRLF chunk.

(** The read loop.  A connection is the list of chunks that the successive
    [recv(1024)] calls return; when the list is used up the peer has closed
    and [recv] returns the empty chunk, which decodes to the empty text and
    ends the loop.  A chunk is decoded on its own, before the test that ends
    the loop: a chunk that the codec does not accept (one that ends in the
    middle of a character, say) raises there. *)
Fixpoint read_request {rt : Runtime} (chunks : list string) (request : string) :
    result string :=
  match chunks with
  | [] => Ok request
  | chunk :: chunks' =>
      match decode chunk with
      | Ok text =>
          let request := request +:+ text in
          if end_of_request chunk then Ok request else read_request chunks' request
      | Raise e => Raise e
      end
  end.

(** [headers, content = request.split("\r\n\r\n")]: unpacking needs
    exactly two pieces. *)
Definition unpack2 (pieces : list string) : result (string * string) :=
  match pieces with
  | [a; b] => Ok (a, b)
  | _ => Raise ValueError
  end.

Definition parse_request (request : string) : result (list string * string) :=
  match unpack2 (Py.split BLANK_LINE request) with
  | Ok (headers, content) => Ok (Py.split CRLF headers, content)
  | Raise e => Raise e
  end.

Section Listener.
Context {rt : Runtime}.

(** The loop body from the JSON step on, lines 144-155. *)
Definition process_json (content : string) : M unit :=
  match json_loads content with
  | Some d => set_data d
  | None => _send 500
  end ;;;
  d <- get_data ;;
  state <- lift (subscript d "state") ;;
  (if json_eq_str state "alerting" then alarm 5000 500 100 else ret tt) ;;;
  _send 204.

(** The loop body after the method check, lines 127-155. *)
Definition process_post (headers : list string) (content : string) : M unit :=
  let index := getSubstringFromList headers "Content-Type: " in
  (if negb (index =? -1)
   then match Py.index headers index with
        | Ok line => set_content_type (Py.slice_from 14 line)
        | Raise IndexError => _send 400
        | Raise e => raise e
        end
   else _send 400) ;;;
  ct <- get_content_type ;;
  if negb (String.eqb ct "application/json")
  then _send 400
  else process_json content.

(** The loop body after the read loop, lines 118-155. *)
Definition handle (request : string) : M unit :=
  p <- lift (parse_request request) ;;
  let '(headers, content) := p in
  first <- lift (Py.index headers 0) ;;
  if negb (String.eqb (Py.slice_to 4 first) "POST")
  then _send 405
  else process_post headers content.

(** One iteration of [while True] in [listen]. *)
Definition serve (chunks : list string) : M unit :=
  accept ;;;
  request <- lift (read_request chunks EmptyString) ;;
  handle request.

(** [HTTP.listen] on the connections that arrive, in order.  An exception
    leaves the loop; when no connection is left the listener waits in
    [accept]. *)
Fixpoint listen (conns : list (list string)) : M unit :=
  match conns with
  | [] => ret tt
  | chunks :: conns' => serve chunks ;;; listen conns'
  end.

End Listener.

(** The state in which [listen] starts: no local bound, nothing done. *)
Definition boot : world := World None None true [].

(** ** alarm/utils.py: readSettings *)

Inductive type := t_str | t_int | t_bool.

(** A value of the settings dictionary: the raw text of the file, or what
    validation stores in its place. *)
Inductive value :=
  | VNone
  | VBool (b : bool)
  | VInt (n : Z)
  | VStr (s : string).

Record model_entry := Entry {
  e_type : type;
  e_required : bool;
  e_required_if : option string;
  e_default : value;
  e_regex : option string
}.

(** The schema, in declaration order (the order in which it is iterated). *)
Definition settings_model : list (string * model_entry) :=
  [ ("SSID", Entry t_str true None VNone None);
    ("KEY", Entry t_str true None VNone None);
    ("MAX_CON", Entry t_int false None (VInt 5) None);
    ("TIMEOUT", Entry t_int false None (VInt 10) None);
    ("PORT", Entry t_int false None (VInt 80) None);
    ("STATIC", Entry t_bool false None (VBool false) (Some "^(TRUE|FALSE)$"));
    ("ADDR", Entry t_str false (Some "STATIC") VNone None);
    ("MASK", Entry t_str false (Some "STATIC") VNone None);
    ("GATEWAY", Entry t_str false (Some "STATIC") VNone None);
    ("ADDR_FAMILY", Entry t_str false (Some "STATIC") VNone (Some "^(INET|INET6)$")) ].

Definition type_eqb (a b : type) : bool :=
  match a, b with
  | t_str, t_str | t_int, t_int | t_bool, t_bool => true
  | _, _ => false
  end.

(** Python truth value of a settings value *)
Definition truthy (v : value) : bool :=
  match v with
  | VNone => false
  | VBool b => b
  | VInt n => negb (n =? 0)
  | VStr s => negb (String.eqb s EmptyString)
  end.

(** [fatal(...)]: log, then [sys.exit(1)] *)
Definition fatal {A} (r : exit_reason) : result A := Raise (SystemExit r).

(** One line of the file, with its line feeds and carriage returns removed
    and then split on [=]; it is kept when its first piece is a key of the
    schema, and the second piece is the value. *)
Definition read_line (model : list (string * model_entry))
    (settings : gmap string value) (i : string) : result (gmap string value) :=
  let line := Py.split "=" (Py.remove_char Py.CR (Py.remove_char Py.LF i)) in
  match Py.index line 0 with
  | Raise e => Raise e
  | Ok key =>
      match assoc key model with
      | Some _ =>
          match Py.index line 1 with
          | Ok v => Ok (<[key := VStr v]> settings)
          | Raise e => Raise e
          end
      | None => Ok settings
      end
  end.

Fixpoint read_lines (model : list (string * model_entry))
    (settings : gmap string value) (lines : list string) : result (gmap string value) :=
  match lines with
  | [] => Ok settings
  | i :: lines' =>
      match read_line model settings i with
      | Ok settings' => read_lines model settings' lines'
      | Raise e => Raise e
      end
  end.

Section Settings.
Context {rt : Runtime}.

(** [settings_model[i]["type"](raw)] for [str] and [int], and
    [raw.upper() == "TRUE"] for [bool]; [None] is a [ValueError]. *)
Definition coerce (t : type) (raw : string) : option value :=
  match t with
  | t_bool => Some (VBool (String.eqb (Py.upper raw) "TRUE"))
  | t_str => Some (VStr raw)
  | t_int => VInt <$> int_of_str raw
  end.

(** The body of the validation loop for the key [i].  A key that is in
    [settings] and has not been validated yet holds the raw text of the
    file, the only kind of value the checks of this branch apply to. *)
Definition validate_entry (i : string) (m : model_entry)
    (settings : gmap string value) : result (gmap string value) :=
  match settings !! i with
  | Some current =>
      match current with
      | VStr raw =>
          if match e_regex m with
             | Some pattern => type_eqb (e_type m) t_str && negb (re_match pattern raw)
             | None => false
             end
          then fatal (RegexMismatch i)
          else match coerce (e_type m) raw with
               | Some v => Ok (<[i := v]> settings)
               | None => fatal (WrongType i)
               end
      | _ => Raise TypeError
      end
  | None =>
      if e_required m then fatal (RequiredMissing i)
      else
        match e_required_if m with
        | Some other =>
            if negb (String.eqb other EmptyString)
            then match settings !! other with
                 | None => Raise KeyError
                 | Some v =>
                     if truthy v then fatal (RequiredBecause i other)
                     else Ok (<[i := e_default m]> settings)
                 end
            else Ok (<[i := e_default m]> settings)
        | None => Ok (<[i := e_default m]> settings)
        end
  end.

(** [for i in settings_model: ...] *)
Fixpoint validate (model : list (string * model_entry))
    (settings : gmap string value) : result (gmap string value) :=
  match model with
  | [] => Ok settings
  | (i, m) :: model' =>
      match validate_entry i m settings with
      | Ok settings' => validate model' settings'
      | Raise e => Raise e
      end
  end.

(** [readSettings]; [file] is [None] when there is no [settings.txt], and
    otherwise what [f.readlines()] returns. *)
Definition readSettings (file : option (list string)) : result (gmap string value) :=
  match file with
  | None => Raise (SystemExit NoSettingsFile)
  | Some lines =>
      match read_lines settings_model ∅ lines with
      | Ok settings => validate settings_model settings
      | Raise e => Raise e
      end
  end.

End Settings.

(** ** A reference runtime

    An executable runtime on which the model can be evaluated: a JSON reader
    (objects, arrays, strings with the one-character escapes, integers,
    [true], [false], [null]), a matcher for the patterns of the form
    [^(A|B|...)$] and a reader of decimal integers.  It covers the inputs of
    the examples below; the general statements hold for every runtime. *)

Module Reference.

Definition is_ws (c : ascii) : bool :=
  Ascii.eqb c " " || Ascii.eqb c "009" || Ascii.eqb c Py.LF || Ascii.eqb c Py.CR.

Fixpoint skip_ws (s : string) : string :=
  match s with
  | String c s' => if is_ws c then skip_ws s' else s
  | EmptyString => s
  end.

Definition is_digit (c : ascii) : bool :=
  let n := nat_of_ascii c in (48 <=? n)%nat && (n <=? 57)%nat.

Fixpoint digits (s : string) (acc : Z) : Z * string :=
  match s with
  | String c s' =>
      if is_digit c then digits s' (10 * acc + Z.of_nat (nat_of_ascii c - 48)) else (acc, s)
  | EmptyString => (acc, s)
  end.

(** The text of a string literal after its opening quote. *)
Fixpoint string_body (s : string) : option (string * string) :=
  match s with
  | EmptyString => None
  | String c s' =>
      if Ascii.eqb c Py.DQ then Some (EmptyString, s')
      else if Ascii.eqb c "\" then
        match s' with
        | String e s'' =>
            let put (x : ascii) :=
              match string_body s'' with
              | Some (t, r) => Some (String x t, r)
              | None => None
              end in
            if Ascii.eqb e Py.DQ then put Py.DQ
            else if Ascii.eqb e "\" then put "\"%char
            else if Ascii.eqb e "/" then put "/"%char
            else if Ascii.eqb e "b" then put "008"%char
            else if Ascii.eqb e "f" then put "012"%char
            else if Ascii.eqb e "n" then put Py.LF
            else if Ascii.eqb e "r" then put Py.CR
            else if Ascii.eqb e "t" then put "009"%char
            else None
        | EmptyString => None
        end
      else if (nat_of_ascii c <? 32)%nat then None
      else match string_body s' with
           | Some (t, r) => Some (String c t, r)
           | None => None
           end
  end.

(** [d[k] = v] on a dictionary kept as a list *)
Fixpoint dict_set (k : string) (v : json) (d : list (string * json)) : list (string * json) :=
  match d with
  | [] => [(k, v)]
  | (k', v') :: d' => if String.eqb k k' then (k, v) :: d' else (k', v') :: dict_set k v d'
  end.

Fixpoint elements (item : string -> option (json * string)) (n : nat)
    (s : string) (acc : list json) : option (list json * string) :=
  match n with
  | O => None
  | S n' =>
      match item s with
      | Some (v, r) =>
          match skip_ws r with
          | String "," r' => elements item n' r' (acc ++ [v])%list
          | String "]" r' => Some ((acc ++ [v])%list, r')
          | _ => None
          end
      | None => None
      end
  end.

Fixpoint members (item : string -> option (json * string)) (n : nat)
    (s : string) (acc : list (string * json)) : option (list (string * json) * string) :=
  match n with
  | O => None
  | S n' =>
      match skip_ws s with
      | String q r =>
          if Ascii.eqb q Py.DQ then
            match string_body r with
            | Some (k, r1) =>
                match skip_ws r1 with
                | String ":" r2 =>
                    match item r2 with
                    | Some (v, r3) =>
                        match skip_ws r3 with
                        | String "," r4 => members item n' r4 (dict_set k v acc)
                        | String "}" r4 => Some (dict_set k v acc, r4)
                        | _ => None
                        end
                    | None => None
                    end
                | _ => None
                end
            | None => None
            end
          else None
      | EmptyString => None
      end
  end.

Fixpoint parse (fuel : nat) (s : string) : option (json * string) :=
  match fuel with
  | O => None
  | S fuel' =>
      match skip_ws s with
      | EmptyString => None
      | String c r =>
          if Ascii.eqb c "{" then
            match skip_ws r with
            | String "}" r' => Some (JDict [], r')
            | _ =>
                match members (parse fuel') (String.length r) r [] with
                | Some (d, r') => Some (JDict d, r')
                | None => None
                end
            end
          else if Ascii.eqb c "[" then
            match skip_ws r with
            | String "]" r' => Some (JList [], r')
            | _ =>
                match elements (parse fuel') (String.length r) r [] with
                | Some (l, r') => Some (JList l, r')
                | None => None
                end
            end
          else if Ascii.eqb c Py.DQ then
            match string_body r with
            | Some (t, r') => Some (JStr t, r')
            | None => None
            end
          else if String.prefix "true" (String c r) then Some (JBool true, Py.drop 3 r)
          else if String.prefix "false" (String c r) then Some (JBool false, Py.drop 4 r)
          else if String.prefix "null" (String c r) then Some (JNone, Py.drop 3 r)
          else
            let '(neg, body) := if Ascii.eqb c "-" then (true, r) else (false, String c r) in
            match body with
            | String d _ =>
                if is_digit d then
                  let '(n, r') := digits body 0 in
                  match r' with
                  | String "." _ | String "e" _ | String "E" _ => None
                  | _ => Some (JInt (if neg then - n else n), r')
                  end
                else None
            | EmptyString => None
            end
      end
  end.

(** The second byte of a three-byte and of a four-byte character: the
    over-long forms, the surrogates and the code points above U+10FFFF are
    not well-formed. *)
Definition second_of_three (a b : ascii) : bool :=
  if Py.byte_in 224 224 a then Py.byte_in 160 191 b
  else if Py.byte_in 237 237 a then Py.byte_in 128 159 b
  else Py.byte_in 128 191 b.

Definition second_of_four (a b : ascii) : bool :=
  if Py.byte_in 240 240 a then Py.byte_in 144 191 b
  else if Py.byte_in 244 244 a then Py.byte_in 128 143 b
  else Py.byte_in 128 191 b.

(** Well-formed UTF-8 *)
Fixpoint utf8_valid (s : string) : bool :=
  match s with
  | EmptyString => true
  | String a s1 =>
      if Py.byte_in 0 127 a then utf8_valid s1
      else
        match s1 with
        | EmptyString => false
        | String b s2 =>
            if Py.byte_in 194 223 a then Py.byte_in 128 191 b && utf8_valid s2
            else
              match s2 with
              | EmptyString => false
              | String c s3 =>
                  if Py.byte_in 224 239 a
                  then second_of_three a b && Py.byte_in 128 191 c && utf8_valid s3
                  else
                    match s3 with
                    | EmptyString => false
                    | String d s4 =>
                        Py.byte_in 240 244 a && second_of_four a b && Py.byte_in 128 191 c
                        && Py.byte_in 128 191 d && utf8_valid s4
                    end
              end
        end
  end.

Definition loads (s : string) : option json :=
  match parse (S (String.length s)) s with
  | Some (v, r) =>
      match skip_ws r with
      | EmptyString => Some v
      | _ => None
      end
  | None => None
  end.

(** [^(A|B|...)$] against the whole subject *)
Definition alternatives (pattern : string) : option (list string) :=
  if String.prefix "^(" pattern
  then match Py.split ")$" (Py.drop 2 pattern) with
       | [alts; EmptyString] => Some (Py.split "|" alts)
       | _ => None
       end
  else None.

Definition matches (pattern subject : string) : bool :=
  match alternatives pattern with
  | Some alts => existsb (String.eqb subject) alts
  | None => false
  end.

Definition parse_int (s : string) : option Z :=
  let '(neg, body) :=
    match s with
    | String "-" r => (true, r)
    | String "+" r => (false, r)
    | _ => (false, s)
    end in
  match body with
  | String d _ =>
      if is_digit d then
        match digits body 0 with
        | (n, EmptyString) => Some (if neg then - n else n)
        | _ => None
        end
      else None
  | EmptyString => None
  end.

End Reference.

#[export] Instance reference_runtime : Runtime := {
  json_loads := Reference.loads;
  re_match := Reference.matches;
  int_of_str := Reference.parse_int;
  utf8_check := Reference.utf8_valid;
  utf8_check_empty := eq_refl
}.

Definition dq : string := String Py.DQ EmptyString.
Definition body_alerting : string :=
  "{" +:+ dq +:+ "state" +:+ dq +:+ ":" +:+ dq +:+ "alerting" +:+ dq +:+ "}".
Definition body_idle : string :=
  "{" +:+ dq +:+ "state" +:+ dq +:+ ":" +:+ dq +:+ "idle" +:+ dq +:+ "}".

Definition req (first_line : string) (hdrs : list string) (body : string) : string :=
  first_line +:+ CRLF +:+ String.concat CRLF hdrs +:+ BLANK_LINE +:+ body.

Definition post_json (body : string) : string :=
  req "POST /alert HTTP/1.1" ["Host: alarm"; "Content-Type: application/json"] body.

(** The receiving side of a response, against which the encoder is
    checked (the program itself never reads a response).  [status_text] is
    the text between the protocol version and the blank line of a payload
    that holds one status line and nothing else; [read_status] splits that
    text into the code and the reason phrase. *)
Definition status_text (raw : string) : option string :=
  if String.prefix "HTTP/1.1 " raw
  then match Py.split BLANK_LINE (Py.drop 9 raw) with
       | [line; EmptyString] =>
           if Py.contains CRLF line then None
           else match String.rev line with
                | String " " _ => Some (String.substring 0 (Nat.pred (String.length line)) line)
                | _ => None
                end
       | _ => None
       end
  else None.

Definition read_status (raw : string) : option (Z * string) :=
  match status_text raw with
  | Some text =>
      match String.index 0 " " text with
      | Some n =>
          match NilZero.int_of_string (String.substring 0 n text) with
          | Some code => Some (Z.of_int code, Py.drop (S n) text)
          | None => None
          end
      | None => None
      end
  | None => None
  end.

(** The method of a request in the words of the specification: the leading
    token of the first header line, the text before its first space.  The
    program does not compute it; see [handle] for what it compares. *)
Definition leading_token (line : string) : string :=
  match Py.split " " line with
  | token :: _ => token
  | [] => EmptyString
  end.

(** Splitting on the first occurrence of a separator, in the words of the
    specification: the text before the first occurrence and the text after
    it, [None] when there is no occurrence. *)
Fixpoint split_first (sep s : string) : option (string * string) :=
  if String.prefix sep s then Some (EmptyString, Py.drop (String.length sep) s)
  else match s with
       | EmptyString => None
       | String c s' =>
           match split_first sep s' with
           | Some (a, b) => Some (String c a, b)
           | None => None
           end
       end.

(** Sample inputs *)

Definition header_chunk : string :=
  "POST /alert HTTP/1.1" +:+ CRLF +:+ "Content-Type: application/json" +:+ CRLF.

Definition body_alerting_spaced : string :=
  "{" +:+ dq +:+ "state" +:+ dq +:+ ":" +:+ BLANK_LINE +:+ dq +:+ "alerting" +:+ dq +:+ "}".

Definition forwarded_request : string :=
  req "POST /alert HTTP/1.1"
      ["X-Forwarded-Content-Type: text/plain"; "Content-Type: application/json"]
      body_alerting.

Definition postal_request : string :=
  req "POSTAL /alert HTTP/1.1" ["Content-Type: application/json"] body_alerting.

Definition no_content_type_request : string :=
  req "POST /alert HTTP/1.1" ["Host: alarm"] body_alerting.

Definition status_204 : string := "HTTP/1.1 204 No Content " +:+ BLANK_LINE.
Definition status_400 : string := "HTTP/1.1 400 Bad Request " +:+ BLANK_LINE.
Definition status_405 : string := "HTTP/1.1 405 Method Not Allowed " +:+ BLANK_LINE.
Definition status_500 : string := "HTTP/1.1 500 Internal Server Error " +:+ BLANK_LINE.

(** A value that is still the raw text of the file. *)
Definition is_raw (v : value) : Prop := exists s, v = VStr s.

(** The value that validation stores under a key, given what the key held
    before: the coerced text of the file, or the default. *)
Definition stored {rt : Runtime} (m : model_entry) (before : option value) (v : value) : Prop :=
  match before with
  | Some (VStr raw) => coerce (e_type m) raw = Some v
  | Some _ => False
  | None => v = e_default m
  end.

(** The entry of the schema that a fatal exit complains about. *)
Definition blames (r : exit_reason) (i : string) (m : model_entry) : Prop :=
  match r with
  | NoSettingsFile => False
  | RegexMismatch k => k = i /\ e_type m = t_str
  | WrongType k => k = i /\ e_type m = t_int
  | RequiredMissing k => k = i /\ e_required m = true
  | RequiredBecause k other => k = i /\ e_required_if m = Some other
  end.

Definition lines_yes : list string := ["SSID=net"; "KEY=secret"; "STATIC=yes"].
Definition lines_static_only : list string := ["STATIC=FALSE"].
Definition raw_static_only : gmap string value := list_to_map [("STATIC", VStr "FALSE")].
Definition lines_static : list string := ["SSID=net"; "KEY=secret"; "STATIC=TRUE"].
Definition lines_static_bare : list string :=
  ["SSID=net"; "KEY=secret"; "STATIC=TRUE"; "MASK"].
Definition lines_dhcp : list string :=
  ["SSID=net"; "KEY=secret"; "PORT=8080"; "COLOUR=red"; "STATIC=FALSE"].

Definition raw_yes : gmap string value :=
  list_to_map [("SSID", VStr "net"); ("KEY", VStr "secret"); ("STATIC", VStr "yes")].
Definition raw_static : gmap string value :=
  list_to_map [("SSID", VStr "net"); ("KEY", VStr "secret"); ("STATIC", VStr "TRUE")].
Definition raw_dhcp : gmap string value :=
  list_to_map [("SSID", VStr "net"); ("KEY", VStr "secret"); ("PORT", VStr "8080");
               ("STATIC", VStr "FALSE")].

Definition defaults_of (names : list string) : list (string * value) :=
  omap (fun k => (fun m => (k, e_default m)) <$> assoc k settings_model) names.

Definition cfg_yes : gmap string value :=
  list_to_map ([("SSID", VStr "net"); ("KEY", VStr "secret"); ("STATIC", VBool false)]
               ++ defaults_of ["MAX_CON"; "TIMEOUT"; "PORT"; "ADDR"; "MASK"; "GATEWAY";
                               "ADDR_FAMILY"]).
Definition cfg_dhcp : gmap string value :=
  list_to_map ([("SSID", VStr "net"); ("KEY", VStr "secret"); ("PORT", VInt 8080);
                ("STATIC", VBool false)]
               ++ defaults_of ["MAX_CON"; "TIMEOUT"; "ADDR"; "MASK"; "GATEWAY";
                               "ADDR_FAMILY"]).

(** ** Definitions for further properties of the listener *)

(** What a trace says of the current connection: none open ([Idle]), one
    accepted and not yet answered ([Open]), one answered and not yet closed
    ([Sent]). *)
Inductive conn_state := Idle | Open | Sent.

Definition is_status (payload : string) : bool :=
  String.eqb payload status_204 || String.eqb payload status_400
  || String.eqb payload status_405 || String.eqb payload status_500.

(** The traces in which every payload is one of the four status lines, is
    written to an accepted connection that has had no payload yet, and is
    followed at once by the close of that connection. *)
Definition step_event (s : conn_state) (e : event) : option conn_state :=
  match e, s with
  | Accept, Idle | Accept, Open => Some Open
  | Send payload, Open => if is_status payload then Some Sent else None
  | Close, Sent => Some Idle
  | Alarm _ _ _, Idle | Alarm _ _ _, Open => Some s
  | _, _ => None
  end.

Fixpoint run_trace (s : conn_state) (tr : list event) : option conn_state :=
  match tr with
  | [] => Some s
  | e :: tr' =>
      match step_event s e with
      | Some s' => run_trace s' tr'
      | None => None
      end
  end.

(** A state of the listener whose trace is of that kind and whose socket
    flag agrees with it. *)
Definition orderly (w : world) : Prop :=
  run_trace Idle (trace w) = Some (if closed w then Idle else Open).

(** A computation keeps the listener orderly. *)
Definition keeps_order {A} (m : M A) : Prop :=
  forall w, orderly w -> orderly (m w).2.

Definition is_send (e : event) : bool :=
  match e with Send _ => true | _ => false end.

Definition is_accept (e : event) : bool :=
  match e with Accept => true | _ => false end.

Definition is_alarm (e : event) : bool :=
  match e with Alarm _ _ _ => true | _ => false end.

(** A connection from which the read loop accumulates, without a decoding
    error, a request that splits into header lines and a body: a POST whose
    first [Content-Type: ] line reads [application/json] and whose body is an
    object with a [state] other than ["alerting"]. *)
Definition quiet_post {rt : Runtime} (chunks : list string) : Prop :=
  exists (request : string) (pre post : list string) (first line content : string)
         (d : list (string * json)) (v : json),
    read_request chunks EmptyString = Ok request
    /\ parse_request request = Ok (pre ++ line :: post, content)
    /\ head (pre ++ line :: post) = Some first
    /\ Py.slice_to 4 first = "POST"
    /\ Forall (fun h => Py.contains "Content-Type: " h = false) pre
    /\ Py.contains "Content-Type: " line = true
    /\ Py.slice_from 14 line = "application/json"
    /\ json_loads content = Some (JDict d)
    /\ assoc "state" d = Some v
    /\ json_eq_str v "alerting" = false.

Definition is_dict (d : json) : bool :=
  match d with JDict _ => true | _ => false end.

(** Text in which no byte goes on with a character begun before it: every
    character is one byte. *)
Fixpoint one_byte (s : string) : bool :=
  match s with
  | EmptyString => true
  | String c s' => negb (Py.is_continuation c) && one_byte s'
  end.

(** The two bytes of the letter e with an acute accent, and a POST with a
    header line that begins with that letter *)
Definition e_acute : string :=
  String (ascii_of_nat 195) (String (ascii_of_nat 169) EmptyString).

Definition accented_request : string :=
  req "POST /alert HTTP/1.1" [e_acute +:+ "-Content-Type: application/json"] body_alerting.

(** A chunk that ends after the first byte of a two-byte character *)
Definition cut_chunk : string := " /caf" +:+ String (ascii_of_nat 195) EmptyString.

(** An alerting POST with a header that holds the byte 255 *)
Definition junk_request : string :=
  req "POST /alert HTTP/1.1"
      ["X-Junk: " +:+ String (ascii_of_nat 255) EmptyString; "Content-Type: application/json"]
      body_alerting.

Definition text_plain_request : string :=
  req "POST /alert HTTP/1.1" ["Content-Type: text/plain"] body_alerting.

(** ** Definitions for further properties of the settings *)

(** A line of the file as [read_line] looks at it: without its line feeds
    and carriage returns. *)
Definition clean_line (i : string) : string :=
  Py.remove_char Py.CR (Py.remove_char Py.LF i).

(** [line[0]] and [line[1]] of [read_line] *)
Definition key_of_line (i : string) : result string :=
  Py.index (Py.split "=" (clean_line i)) 0.

Definition value_of_line (i : string) : result string :=
  Py.index (Py.split "=" (clean_line i)) 1.

Definition lines_wifi_key : list string :=
  ["SSID=net" +:+ CRLF; "KEY=pass=word" +:+ CRLF].

Definition raw_ports : gmap string value :=
  <["SSID" := VStr "net"]> (<["PORT" := VStr "8080"]> (<["PORT" := VStr "80"]> ∅)).

Definition lines_static_full : list string :=
  ["SSID=net"; "KEY=secret"; "STATIC=TRUE"; "ADDR=192.168.1.5"; "MASK=255.255.255.0";
   "GATEWAY=192.168.1.1"; "ADDR_FAMILY=INET"].

Definition cfg_static_full : gmap string value :=
  list_to_map ([("SSID", VStr "net"); ("KEY", VStr "secret"); ("STATIC", VBool true);
                ("ADDR", VStr "192.168.1.5"); ("MASK", VStr "255.255.255.0");
                ("GATEWAY", VStr "192.168.1.1"); ("ADDR_FAMILY", VStr "INET")]
               ++ defaults_of ["MAX_CON"; "TIMEOUT"; "PORT"]).

Definition lines_bad_port : list string := ["SSID=net"; "KEY=secret"; "PORT=eighty"].

Definition raw_bad_port : gmap string value :=
  list_to_map [("SSID", VStr "net"); ("KEY", VStr "secret"); ("PORT", VStr "eighty")].

(** ** alarm/main.py: main *)

(** [settings[key]] *)
Definition setting (settings : gmap string value) (key : string) : result value :=
  match settings !! key with
  | Some v => Ok v
  | None => Raise KeyError
  end.

Definition and_then {A B} (r : result A) (k : A -> result B) : result B :=
  match r with
  | Ok a => k a
  | Raise e => Raise e
  end.

(** The arguments of the call of [initWLAN], in the order of its
    parameters. *)
Record wlan_args := WlanArgs {
  w_SSID : value;
  w_key : value;
  w_timeout : value;
  w_static : value;
  w_ip : value;
  w_mask : value;
  w_gateway : value
}.

(** The arguments of [HTTP(...)] *)
Record http_args := HttpArgs {
  h_port : value;
  h_max_con : value;
  h_addr_family : value
}.

(** How [main] goes on after the settings: an exception leaves it, or the
    network did not come up and it exits, or it builds the server with
    these arguments and listens. *)
Inductive startup :=
  | Stopped (e : exn)
  | NoNetwork
  | Serving (args : http_args).

(** The subscripts of line 17, evaluated from left to right *)
Definition wlan_arguments (settings : gmap string value) : result wlan_args :=
  and_then (setting settings "SSID") (fun ssid =>
  and_then (setting settings "KEY") (fun key =>
  and_then (setting settings "TIMEOUT") (fun timeout =>
  and_then (setting settings "STATIC") (fun static =>
  and_then (setting settings "ADDR") (fun ip =>
  and_then (setting settings "MASK") (fun mask =>
  and_then (setting settings "GATEWAY") (fun gateway =>
  Ok (WlanArgs ssid key timeout static ip mask gateway)))))))).

(** The subscripts of line 21 *)
Definition http_arguments (settings : gmap string value) : result http_args :=
  and_then (setting settings "PORT") (fun port =>
  and_then (setting settings "MAX_CON") (fun max_con =>
  and_then (setting settings "ADDR_FAMILY") (fun addr_family =>
  Ok (HttpArgs port max_con addr_family)))).

(** [main], with the settings file and the outcome of [initWLAN] for its
    arguments given. *)
Definition main {rt : Runtime} (file : option (list string))
    (initWLAN : wlan_args -> bool) : startup :=
  match readSettings file with
  | Raise e => Stopped e
  | Ok settings =>
      match wlan_arguments settings with
      | Raise e => Stopped e
      | Ok args =>
          if negb (initWLAN args) then NoNetwork
          else match http_arguments settings with
               | Raise e => Stopped e
               | Ok served => Serving served
               end
      end
  end.

(** A value that is text or [None] *)
Definition text_or_None (v : value) : Prop := v = VNone \/ is_raw v.

(** * Properties *)

(** ** The response encoder *)

Lemma CODES_get_In (table : list (Z * string)) (code : Z) (reason : string) :
  CODES_get table code = Some reason -> (code, reason) ∈ table.
Proof.
  induction table as [|[c r] table IH]; simpl; [discriminate|].
  destruct (Z.eqb_spec c code) as [->|_].
  - intros [= ->]. now left.
  - intros H. right. now apply IH.
Qed.

Lemma send_open (code : Z) (reason : string) (w : world) :
  CODES_get CODES code = Some reason ->
  closed w = false ->
  _send code w =
    (Ok tt, World (content_type w) (data w) true
                  (trace w ++ [Send (status_line code reason); Close])).
Proof.
  intros Hget Hopen. unfold _send. rewrite Hget.
  unfold bind, conn_send, conn_close, emit, set_closed. rewrite Hopen. simpl.
  unfold bind. simpl. now rewrite <- app_assoc.
Qed.

Lemma send_closed (code : Z) (reason : string) (w : world) :
  CODES_get CODES code = Some reason ->
  closed w = true ->
  _send code w = (Raise OSError, w).
Proof.
  intros Hget Hclosed. unfold _send. rewrite Hget.
  unfold bind, conn_send. now rewrite Hclosed.
Qed.

Lemma status_lines_read_back :
  Forall (fun p : Z * string =>
            status_text (status_line p.1 p.2) = Some (Py.str_of_int p.1 +:+ " " +:+ p.2)
            /\ read_status (status_line p.1 p.2) = Some p) CODES.
Proof. unfold CODES. repeat (constructor; [split; vm_compute; reflexivity|]). constructor. Qed.

(** C7. For every code of the table the payload that [_send] builds is the
    version, the code, the reason phrase, a space and the blank line; reading
    it back gives the text "<code> <reason phrase>" and the table entry
    itself, and a payload is only read back when nothing follows the status
    line.  On an open connection [_send] writes that one payload and closes
    the connection; on a closed one it writes nothing and raises. *)
Theorem send_round_trip (code : Z) (reason : string) :
  CODES_get CODES code = Some reason ->
  exists raw : string,
    raw = "HTTP/1.1 " +:+ Py.str_of_int code +:+ " " +:+ reason +:+ " " +:+ BLANK_LINE
    /\ status_text raw = Some (Py.str_of_int code +:+ " " +:+ reason)
    /\ read_status raw = Some (code, reason)
    /\ forall w : world,
         _send code w =
           if closed w then (Raise OSError, w)
           else (Ok tt, World (content_type w) (data w) true (trace w ++ [Send raw; Close])).
Proof.
  intros Hget. exists (status_line code reason). split; [reflexivity|].
  pose proof status_lines_read_back as Hall.
  rewrite Forall_forall in Hall.
  destruct (Hall (code, reason) (CODES_get_In _ _ _ Hget)) as [Htext Hread].
  split; [exact Htext|]. split; [exact Hread|].
  intros w. destruct (closed w) eqn:Hw.
  - now apply send_closed with reason.
  - now apply send_open.
Qed.

Lemma send_round_trip_204 :
  exists raw : string,
    raw = "HTTP/1.1 204 No Content " +:+ BLANK_LINE
    /\ status_text raw = Some "204 No Content"
    /\ read_status raw = Some (204, "No Content")
    /\ forall w : world,
         _send 204 w =
           if closed w then (Raise OSError, w)
           else (Ok tt, World (content_type w) (data w) true (trace w ++ [Send raw; Close])).
Proof. exact (send_round_trip 204 "No Content" eq_refl). Defined.

(** ** The request reader *)

Lemma app_cons (c : ascii) (a b : string) : String c a +:+ b = String c (a +:+ b).
Proof. reflexivity. Qed.

Lemma app_empty_l (s : string) : EmptyString +:+ s = s.
Proof. reflexivity. Qed.

Lemma prefix_app_l (a b s : string) :
  String.prefix (a +:+ b) s = true -> String.prefix a s = true.
Proof.
  revert s. induction a as [|c a IH]; intros s; [now destruct s|].
  destruct s as [|d s]; rewrite app_cons; simpl; [discriminate|].
  destruct (ascii_dec c d); [apply IH|discriminate].
Qed.

Lemma contains_app_l (a b s : string) :
  Py.contains (a +:+ b) s = true -> Py.contains a s = true.
Proof.
  induction s as [|c s IH]; cbn [Py.contains].
  - rewrite !orb_false_r. apply prefix_app_l.
  - rewrite !orb_true_iff. intros [H|H]; [left; now apply prefix_app_l with b|right; now apply IH].
Qed.

Lemma contains_self (s : string) : Py.contains s s = true.
Proof.
  assert (H : forall t, String.prefix t t = true).
  { induction t as [|c t IH]; simpl; [reflexivity|]. now destruct (ascii_dec c c). }
  destruct s; cbn [Py.contains]; rewrite H; reflexivity.
Qed.

(** The read loop stops on the empty chunk and on every chunk that holds a
    line terminator. *)
Lemma end_of_request_iff (chunk : string) :
  end_of_request chunk = true <-> chunk = EmptyString \/ Py.contains CRLF chunk = true.
Proof.
  unfold end_of_request. rewrite !orb_true_iff, !String.eqb_eq. split.
  - intros [[H|H]|H]; [now left| |now right]. right. subst. apply contains_self.
  - intros [H|H]; [now left; left|now right].
Qed.

(** A chunk that holds the blank-line marker stops the loop. *)
Lemma blank_line_ends_request (chunk : string) :
  Py.contains BLANK_LINE chunk = true -> end_of_request chunk = true.
Proof.
  intros H. apply end_of_request_iff. right. now apply contains_app_l with CRLF.
Qed.

(** A first chunk that holds a line terminator is the whole request, whatever
    the peer sends next: the outcome of the read loop is the outcome of
    decoding that chunk. *)
Lemma first_chunk_with_terminator {rt : Runtime} (chunk : string) (rest : list string) :
  Py.contains CRLF chunk = true ->
  read_request (chunk :: rest) EmptyString = decode chunk.
Proof.
  intros H. cbn [read_request]. unfold decode.
  destruct (utf8_check chunk); [|reflexivity].
  now rewrite app_empty_l, (proj2 (end_of_request_iff chunk) (or_intror H)).
Qed.


Lemma split_go_nonempty (sep : string) (skip : nat) (s : string) :
  Py.split_go sep skip s <> [].
Proof.
  revert skip. induction s as [|c s IH]; intros skip; cbn [Py.split_go]; [discriminate|].
  destruct skip; [|apply IH].
  destruct (String.prefix sep (String c s)); [discriminate|].
  destruct (Py.split_go sep 0 s); discriminate.
Qed.

Lemma concat_cons (sep x : string) (l : list string) :
  l <> [] -> String.concat sep (x :: l) = x +:+ sep +:+ String.concat sep l.
Proof. destruct l; [congruence|reflexivity]. Qed.

Lemma prefix_split (a s : string) :
  String.prefix a s = true ->
  (String.length a <= String.length s)%nat /\ s = a +:+ Py.drop (String.length a) s.
Proof.
  revert s. induction a as [|c a IH]; intros s.
  - intros _. split; [simpl; lia|reflexivity].
  - destruct s as [|d s]; simpl; [discriminate|].
    destruct (ascii_dec c d) as [->|]; [|discriminate].
    intros H. destruct (IH _ H) as [Hlen Heq]. simpl. split; [lia|].
    now rewrite app_cons, <- Heq.
Qed.

(** Joining the pieces of a split with the separator gives the text back. *)
Lemma split_go_join (sep : string) (s : string) :
  sep <> EmptyString ->
  forall skip : nat, (skip <= String.length s)%nat ->
    String.concat sep (Py.split_go sep skip s) = Py.drop skip s.
Proof.
  intros Hsep. induction s as [|c s IH]; intros skip Hskip; cbn [Py.split_go].
  - simpl in Hskip. now replace skip with 0%nat by lia.
  - simpl in Hskip. destruct skip as [|k]; [|apply IH; lia].
    destruct (String.prefix sep (String c s)) eqn:Hp.
    + destruct sep as [|c0 sep0]; [congruence|].
      apply prefix_split in Hp as [Hlen Heq]. simpl in Hlen, Heq.
      rewrite concat_cons by apply split_go_nonempty.
      rewrite IH by (simpl; lia). simpl. now rewrite app_empty_l.
    + specialize (IH 0%nat ltac:(lia)). simpl in IH.
      destruct (Py.split_go sep 0 s) as [|p ps] eqn:Hs; [now apply split_go_nonempty in Hs|].
      destruct ps; simpl in *; now rewrite ?app_cons, IH.
Qed.

Lemma split_join (sep s : string) :
  sep <> EmptyString -> String.concat sep (Py.split sep s) = s.
Proof. intros Hsep. apply (split_go_join sep s Hsep 0%nat). lia. Qed.

(** When the request parses, its text is the header lines joined by line
    terminators, the blank-line marker and the content. *)
Lemma parse_request_join (request : string) (headers : list string) (content : string) :
  parse_request request = Ok (headers, content) ->
  request = String.concat CRLF headers +:+ BLANK_LINE +:+ content.
Proof.
  unfold parse_request, unpack2. intros H.
  pose proof (split_join BLANK_LINE request ltac:(discriminate)) as Hj.
  destruct (Py.split BLANK_LINE request) as [|a [|b [|? ?]]]; try discriminate.
  injection H as <- <-. rewrite split_join by discriminate. now rewrite <- Hj.
Qed.

Lemma split_go_skip (sep : string) (s : string) :
  forall skip : nat, (skip <= String.length s)%nat ->
    Py.split_go sep skip s = Py.split_go sep 0 (Py.drop skip s).
Proof.
  induction s as [|c s IH]; intros skip Hskip; simpl in Hskip.
  - now replace skip with 0%nat by lia.
  - destruct skip as [|k]; [reflexivity|]. cbn [Py.split_go Py.drop]. apply IH. lia.
Qed.

(** [split], piece by piece: the text before the first occurrence, then the
    split of the text after it. *)
Lemma split_unfold (sep s : string) :
  sep <> EmptyString ->
  Py.split sep s =
    match split_first sep s with
    | Some (a, b) => a :: Py.split sep b
    | None => [s]
    end.
Proof.
  intros Hsep. unfold Py.split. induction s as [|c s IH].
  - destruct sep; [congruence|reflexivity].
  - cbn [Py.split_go split_first]. destruct (String.prefix sep (String c s)) eqn:Hp.
    + destruct sep as [|c0 sep0]; [congruence|].
      apply prefix_split in Hp as [Hlen _]. simpl in Hlen.
      cbn [String.length Nat.pred Py.drop]. now rewrite split_go_skip by lia.
    + rewrite IH. now destruct (split_first sep s) as [[a b]|].
Qed.

Lemma split_first_none (sep s : string) :
  split_first sep s = None <-> Py.contains sep s = false.
Proof.
  induction s as [|c s IH]; cbn [split_first Py.contains].
  - destruct (String.prefix sep EmptyString); simpl; split; congruence.
  - destruct (String.prefix sep (String c s)); simpl; [split; congruence|].
    rewrite <- IH. destruct (split_first sep s) as [[a b]|]; split; congruence.
Qed.

(** C4. What the reader does with a terminated buffer, against the split
    on the first blank-line marker: it yields the header lines and the body
    when the text after the first marker holds no further marker, and raises
    when it does (and when there is no marker at all). *)
Theorem parse_request_first_marker (request : string) :
  parse_request request =
    match split_first BLANK_LINE request with
    | Some (block, body) =>
        if Py.contains BLANK_LINE body then Raise ValueError
        else Ok (Py.split CRLF block, body)
    | None => Raise ValueError
    end.
Proof.
  unfold parse_request. rewrite split_unfold by discriminate.
  destruct (split_first BLANK_LINE request) as [[block body]|]; [|reflexivity].
  rewrite split_unfold by discriminate.
  destruct (split_first BLANK_LINE body) as [[a b]|] eqn:Hbody.
  - assert (Py.contains BLANK_LINE body = true) as ->.
    { destruct (Py.contains BLANK_LINE body) eqn:Hc; [reflexivity|].
      apply split_first_none in Hc. congruence. }
    pose proof (split_go_nonempty BLANK_LINE 0 b) as Hne. unfold Py.split.
    destruct (Py.split_go BLANK_LINE 0 b); [congruence|reflexivity].
  - apply split_first_none in Hbody. now rewrite Hbody.
Qed.

(** A JSON body with a blank line between two of its tokens: the request
    holds the marker, the split yields three pieces and the listener stops
    before any status line is sent. *)
Lemma marker_in_body_breaks_split :
  json_loads body_alerting_spaced = Some (JDict [("state", JStr "alerting")])
  /\ split_first BLANK_LINE (post_json body_alerting_spaced) =
       Some (String.concat CRLF ["POST /alert HTTP/1.1"; "Host: alarm";
                                 "Content-Type: application/json"],
             body_alerting_spaced)
  /\ length (Py.split BLANK_LINE (post_json body_alerting_spaced)) = 3%nat
  /\ parse_request (post_json body_alerting_spaced) = Raise ValueError
  /\ listen [[post_json body_alerting_spaced]; [post_json body_idle]] boot
     = (Raise ValueError, World None None false [Accept]).
Proof. repeat split; vm_compute; reflexivity. Qed.

(** ** The dispatcher *)

Lemma getSubstringFromList_from_first (i : Z) (pre post : list string) (line sub : string) :
  Forall (fun h => Py.contains sub h = false) pre ->
  Py.contains sub line = true ->
  getSubstringFromList_from i (pre ++ line :: post) sub = i + Z.of_nat (length pre).
Proof.
  intros Hpre Hline. revert i.
  induction Hpre as [|h pre Hh _ IH]; intros i; simpl.
  - rewrite Hline. lia.
  - rewrite Hh, IH. lia.
Qed.

Lemma index_middle {A} (pre post : list A) (x : A) :
  Py.index (pre ++ x :: post) (Z.of_nat (length pre)) = Ok x.
Proof.
  unfold Py.index. cbv zeta.
  assert ((Z.of_nat (length pre) <? 0) = false) as Hlt by (apply Z.ltb_ge; lia).
  rewrite !Hlt, Nat2Z.id, list_lookup_middle; reflexivity.
Qed.

Lemma index_head {A} (l : list A) (x : A) : head l = Some x -> Py.index l 0 = Ok x.
Proof. destruct l; [discriminate|]. now intros [= ->]. Qed.

Lemma parse_request_headers (request : string) (headers : list string) (content : string) :
  parse_request request = Ok (headers, content) -> exists first, head headers = Some first.
Proof.
  unfold parse_request. destruct (unpack2 _) as [[h c]|]; [|discriminate].
  intros [= <- _]. pose proof (split_go_nonempty CRLF 0 h) as Hne. unfold Py.split.
  destruct (Py.split_go CRLF 0 h) as [|first ?]; [congruence|]. now exists first.
Qed.

Section Dispatcher.
Context {rt : Runtime}.

Lemma serve_handle (chunks : list string) (request : string) (w : world) :
  read_request chunks EmptyString = Ok request ->
  serve chunks w =
    handle request (World (content_type w) (data w) false (trace w ++ [Accept])).
Proof.
  intros Hread. unfold serve, accept, lift, set_closed, emit.
  unfold bind at 1 2. cbn [content_type data closed trace]. now rewrite Hread.
Qed.

(** A chunk that does not decode stops the iteration in the read loop:
    the connection has been accepted and nothing else has happened. *)
Lemma serve_undecodable (chunks : list string) (e : exn) (w : world) :
  read_request chunks EmptyString = Raise e ->
  serve chunks w =
    (Raise e, World (content_type w) (data w) false (trace w ++ [Accept])).
Proof.
  intros Hread. unfold serve, accept, lift, set_closed, emit.
  unfold bind at 1 2. cbn [content_type data closed trace]. now rewrite Hread.
Qed.

Lemma handle_parsed (request : string) (headers : list string) (content first : string) (w : world) :
  parse_request request = Ok (headers, content) ->
  head headers = Some first ->
  handle request w =
    if negb (String.eqb (Py.slice_to 4 first) "POST")
    then _send 405 w
    else process_post headers content w.
Proof.
  intros Hparse Hfirst. unfold handle, bind, lift.
  rewrite Hparse, (index_head _ _ Hfirst).
  now destruct (negb _).
Qed.

(** When the first header line that holds [Content-Type: ] reads
    [application/json] after its first 14 characters, the request reaches
    the JSON step with that content type bound. *)
Lemma process_post_json (pre post : list string) (line content : string) (w : world) :
  Forall (fun h => Py.contains "Content-Type: " h = false) pre ->
  Py.contains "Content-Type: " line = true ->
  Py.slice_from 14 line = "application/json" ->
  process_post (pre ++ line :: post) content w =
    process_json content
      (World (Some "application/json") (data w) (closed w) (trace w)).
Proof.
  intros Hpre Hline Hvalue. unfold process_post, getSubstringFromList.
  rewrite (getSubstringFromList_from_first 0 pre post line _ Hpre Hline).
  rewrite Z.add_0_l, index_middle.
  destruct (Z.eqb_spec (Z.of_nat (length pre)) (-1)) as [?|_]; [lia|].
  cbn [negb]. rewrite Hvalue. reflexivity.
Qed.

Lemma process_json_alerting (content : string) (d : list (string * json)) (w : world) :
  json_loads content = Some (JDict d) ->
  assoc "state" d = Some (JStr "alerting") ->
  closed w = false ->
  process_json content w =
    (Ok tt, World (content_type w) (Some (JDict d)) true
                  (trace w ++ [Alarm 5000 500 100;
                               Send status_204; Close])).
Proof.
  intros Hload Hstate Hopen. unfold process_json. rewrite Hload.
  unfold bind, set_data, get_data, lift, subscript, alarm, emit. simpl.
  rewrite Hstate. simpl.
  erewrite send_open by (reflexivity || exact Hopen). simpl.
  now rewrite <- app_assoc.
Qed.

Lemma process_json_missing_state (content : string) (d : list (string * json))
    (w : world) :
  json_loads content = Some (JDict d) ->
  assoc "state" d = None ->
  process_json content w =
    (Raise KeyError, World (content_type w) (Some (JDict d)) (closed w) (trace w)).
Proof.
  intros Hload Hstate. unfold process_json. rewrite Hload.
  unfold bind, set_data, get_data, lift, subscript. simpl. now rewrite Hstate.
Qed.

(** The part of the no-alarm case that the code handles: a [state]
    that is there and is not ["alerting"]. *)
Lemma process_json_other_state (content : string) (d : list (string * json))
    (v : json) (w : world) :
  json_loads content = Some (JDict d) ->
  assoc "state" d = Some v ->
  json_eq_str v "alerting" = false ->
  closed w = false ->
  process_json content w =
    (Ok tt, World (content_type w) (Some (JDict d)) true
                  (trace w ++ [Send status_204; Close])).
Proof.
  intros Hload Hstate Hne Hopen. unfold process_json. rewrite Hload.
  unfold bind, set_data, get_data, lift, subscript, ret. simpl.
  rewrite Hstate, Hne.
  now erewrite send_open by (reflexivity || exact Hopen).
Qed.

(** After a body that does not parse the 500 is sent and the connection
    closed, and the iteration goes on to [data["state"]] and to the second
    [_send]: it always ends in an exception. *)
Lemma process_json_unparsable (content : string) (w : world) :
  json_loads content = None ->
  closed w = false ->
  exists (e : exn) (w' : world) (tail : list event),
    process_json content w = (Raise e, w')
    /\ trace w' =
         (trace w ++ [Send status_500; Close]
                 ++ tail)%list.
Proof.
  intros Hload Hopen. unfold process_json. rewrite Hload.
  unfold bind at 1. erewrite send_open by (reflexivity || exact Hopen).
  unfold bind at 1. unfold get_data at 1. cbn [data].
  destruct (data w) as [dt|]; [|eexists _, _, []; split; reflexivity].
  unfold bind at 1. unfold lift at 1.
  destruct (subscript dt "state") as [v|e];
    [|eexists _, _, []; split; reflexivity].
  unfold bind at 1.
  destruct (json_eq_str v "alerting").
  - eexists _, _, [Alarm 5000 500 100]. split; [reflexivity|]. cbn.
    now rewrite <- app_assoc.
  - eexists _, _, []. split; reflexivity.
Qed.

End Dispatcher.

(** An exception in an iteration leaves the loop: the connections that
    follow are not accepted. *)
Lemma listen_raise {rt : Runtime} (chunks : list string) (conns : list (list string))
    (w w' : world) (e : exn) :
  serve chunks w = (Raise e, w') -> listen (chunks :: conns) w = (Raise e, w').
Proof. intros H. cbn [listen]. unfold bind. now rewrite H. Qed.

(** A request without a blank-line marker stops the listener before any
    status line is sent. *)
Lemma serve_without_marker {rt : Runtime} (chunks : list string) (request : string)
    (w : world) :
  read_request chunks EmptyString = Ok request ->
  Py.contains BLANK_LINE request = false ->
  serve chunks w =
    (Raise ValueError, World (content_type w) (data w) false (trace w ++ [Accept])).
Proof.
  intros Hread Hnone. rewrite (serve_handle _ _ _ Hread).
  unfold handle, bind, lift, parse_request.
  rewrite split_unfold by discriminate.
  now rewrite (proj2 (split_first_none _ _) Hnone).
Qed.

(** C5. A chunk that holds a line terminator and no blank-line marker (a
    chunk of header lines, say) ends the read loop: what has been read is
    that chunk alone, whatever the peer sends next.  When the chunk decodes,
    the request is its text and, since it holds no marker, the unpacking that
    follows raises [ValueError]; when it does not decode, the decoding has
    raised.  Either way the listener stops with the connection accepted and
    nothing sent. *)
Theorem header_chunk_ends_read_loop {rt : Runtime} (w : world) (chunk : string)
    (rest : list string) (conns : list (list string)) :
  Py.contains CRLF chunk = true ->
  Py.contains BLANK_LINE chunk = false ->
  end_of_request chunk = true
  /\ read_request (chunk :: rest) EmptyString = decode chunk
  /\ listen ((chunk :: rest) :: conns) w =
       (Raise (if utf8_check chunk then ValueError else UnicodeError),
        World (content_type w) (data w) false (trace w ++ [Accept])).
Proof.
  intros Hline Hnone.
  pose proof (first_chunk_with_terminator chunk rest Hline) as Hread.
  split; [apply end_of_request_iff; now right|]. split; [exact Hread|].
  apply listen_raise. unfold decode in Hread.
  destruct (utf8_check chunk).
  - now apply serve_without_marker with chunk.
  - now apply serve_undecodable.
Qed.

Lemma header_chunk_ends_read_loop_example :
  end_of_request header_chunk = true
  /\ read_request [header_chunk; CRLF +:+ body_alerting] EmptyString = Ok header_chunk
  /\ listen [[header_chunk; CRLF +:+ body_alerting]; [post_json body_idle]] boot =
       (Raise ValueError, World None None false [Accept]).
Proof.
  exact (header_chunk_ends_read_loop (rt := reference_runtime) boot header_chunk
           [CRLF +:+ body_alerting] [[post_json body_idle]] eq_refl eq_refl).
Defined.

(** C1, as stated: four connections that deliver a POST request with the
    header line [Content-Type: application/json] and the alerting body.  In
    the first an earlier header line holds the text [Content-Type: ] too, the
    scan stops there and the answer is 400, without the buzzer.  In the
    second the body arrives in a chunk of its own: the read loop stops after
    the headers, the empty body does not parse, the answer is 500 and the
    listener stops.  In the third another header holds a byte that does not
    decode, and in the fourth the body has a blank line between two of its
    tokens: the iteration raises before anything is sent. *)
Lemma alerting_post_can_be_refused :
  parse_request forwarded_request =
    Ok (["POST /alert HTTP/1.1"; "X-Forwarded-Content-Type: text/plain";
         "Content-Type: application/json"], body_alerting)
  /\ Py.slice_from 14 "Content-Type: application/json" = "application/json"
  /\ json_loads body_alerting = Some (JDict [("state", JStr "alerting")])
  /\ serve [forwarded_request] boot =
       (Ok tt, World (Some "ntent-Type: text/plain") None true [Accept; Send status_400; Close])
  /\ String.concat EmptyString [post_json EmptyString; body_alerting] = post_json body_alerting
  /\ serve [post_json EmptyString; body_alerting] boot =
       (Raise UnboundLocalError,
        World (Some "application/json") None true [Accept; Send status_500; Close])
  /\ serve [junk_request] boot = (Raise UnicodeError, World None None false [Accept])
  /\ json_loads body_alerting_spaced = Some (JDict [("state", JStr "alerting")])
  /\ serve [post_json body_alerting_spaced] boot =
       (Raise ValueError, World None None false [Accept]).
Proof. repeat split; vm_compute; reflexivity. Qed.

(** C1, amended. A connection whose chunks, as far as the read loop reads
    them, decode, and from which the loop accumulates a request that the
    split at the blank-line marker turns into exactly two pieces, header
    lines and a body; the first header line starts with the four characters
    POST, the first header line holding [Content-Type: ] has, after its
    first 14 characters, the value [application/json], and [json.loads] turns
    the body into an object whose [state] is ["alerting"].  Then the buzzer
    is called once, with (5000, 500, 100), the 204 status line is sent and the
    connection closed, and the iteration ends normally. *)
Theorem alerting_post_activates_buzzer {rt : Runtime} (w : world) (chunks : list string)
    (request : string) (pre post : list string) (first line content : string)
    (d : list (string * json)) :
  read_request chunks EmptyString = Ok request ->
  parse_request request = Ok (pre ++ line :: post, content) ->
  head (pre ++ line :: post) = Some first ->
  Py.slice_to 4 first = "POST" ->
  Forall (fun h => Py.contains "Content-Type: " h = false) pre ->
  Py.contains "Content-Type: " line = true ->
  Py.slice_from 14 line = "application/json" ->
  json_loads content = Some (JDict d) ->
  assoc "state" d = Some (JStr "alerting") ->
  serve chunks w =
    (Ok tt, World (Some "application/json") (Some (JDict d)) true
                  (trace w ++ [Accept; Alarm 5000 500 100; Send status_204; Close])).
Proof.
  intros Hread Hparse Hfirst Hpost Hpre Hline Hvalue Hload Hstate.
  rewrite (serve_handle _ _ _ Hread), (handle_parsed _ _ _ _ _ Hparse Hfirst), Hpost.
  cbn [String.eqb negb].
  replace (negb ("POST" =? "POST")%string) with false by reflexivity.
  rewrite (process_post_json _ _ _ _ _ Hpre Hline Hvalue).
  cbn [content_type data closed trace].
  erewrite process_json_alerting by (eassumption || reflexivity).
  cbn [content_type data closed trace]. now rewrite <- app_assoc.
Qed.

Lemma alerting_post_activates_buzzer_example :
  serve [post_json body_alerting] boot =
    (Ok tt, World (Some "application/json") (Some (JDict [("state", JStr "alerting")])) true
                  [Accept; Alarm 5000 500 100; Send status_204; Close]).
Proof.
  apply (alerting_post_activates_buzzer (rt := reference_runtime) boot [post_json body_alerting]
           (post_json body_alerting) ["POST /alert HTTP/1.1"; "Host: alarm"] []
           "POST /alert HTTP/1.1"
           "Content-Type: application/json" body_alerting [("state", JStr "alerting")]);
    try reflexivity.
  repeat constructor.
Defined.

(** C2. A POST, read and split into header lines and a body, with the JSON
    content type and a body that does not parse as JSON gets its 500 and its
    connection closed, and then, whatever the locals hold, the iteration ends
    in an exception: the listener stops and the connections that follow are
    never accepted. *)
Theorem listener_stops_after_500 {rt : Runtime} (w : world) (chunks : list string)
    (conns : list (list string)) (request : string) (pre post : list string)
    (first line content : string) :
  read_request chunks EmptyString = Ok request ->
  parse_request request = Ok (pre ++ line :: post, content) ->
  head (pre ++ line :: post) = Some first ->
  Py.slice_to 4 first = "POST" ->
  Forall (fun h => Py.contains "Content-Type: " h = false) pre ->
  Py.contains "Content-Type: " line = true ->
  Py.slice_from 14 line = "application/json" ->
  json_loads content = None ->
  exists (e : exn) (w' : world) (tail : list event),
    listen (chunks :: conns) w = (Raise e, w')
    /\ trace w' = (trace w ++ [Accept; Send status_500; Close] ++ tail)%list.
Proof.
  intros Hread Hparse Hfirst Hpost Hpre Hline Hvalue Hload.
  pose proof (process_json_unparsable content
                (World (Some "application/json") (data w) false (trace w ++ [Accept]))
                Hload eq_refl) as (e & w' & tail & Hrun & Htrace).
  exists e, w', tail. split.
  - apply listen_raise.
    rewrite (serve_handle _ _ _ Hread), (handle_parsed _ _ _ _ _ Hparse Hfirst), Hpost.
    replace (negb ("POST" =? "POST")%string) with false by reflexivity.
    rewrite (process_post_json _ _ _ _ _ Hpre Hline Hvalue).
    cbn [content_type data closed trace]. exact Hrun.
  - rewrite Htrace. cbn [trace]. now rewrite <- app_assoc.
Qed.

Lemma listener_stops_after_500_example :
  exists (e : exn) (w' : world) (tail : list event),
    listen [[post_json "not json"]; [post_json body_idle]] boot = (Raise e, w')
    /\ trace w' = ([] ++ [Accept; Send status_500; Close] ++ tail)%list.
Proof.
  apply (listener_stops_after_500 (rt := reference_runtime) boot [post_json "not json"]
           [[post_json body_idle]] (post_json "not json")
           ["POST /alert HTTP/1.1"; "Host: alarm"] []
           "POST /alert HTTP/1.1" "Content-Type: application/json" "not json");
    try reflexivity.
  repeat constructor.
Defined.

(** The two ways in which the iteration goes on after an error response.
    With nothing bound yet, the unbound [data] is read after the 500.  After
    an alert, a POST without a content type gets its 400, then the buzzer is
    driven on the strength of the [content_type] and of the body that the
    iteration went on to parse, and the second [_send] raises on the closed
    connection. *)
Lemma error_response_then_exception :
  listen [[post_json "not json"]; [post_json body_idle]] boot =
    (Raise UnboundLocalError,
     World (Some "application/json") None true [Accept; Send status_500; Close])
  /\ listen [[post_json body_alerting]; [no_content_type_request]; [post_json body_idle]] boot =
    (Raise OSError,
     World (Some "application/json") (Some (JDict [("state", JStr "alerting")])) true
           [Accept; Alarm 5000 500 100; Send status_204; Close;
            Accept; Send status_400; Close; Alarm 5000 500 100]).
Proof. split; vm_compute; reflexivity. Qed.

(** C3. A POST, read and split into header lines and a body, with the JSON
    content type and a body that parses to an object without a [state]
    field: [data["state"]] raises [KeyError], nothing is sent, the connection
    stays open and the listener stops. *)
Theorem missing_state_raises_KeyError {rt : Runtime} (w : world) (chunks : list string)
    (conns : list (list string)) (request : string) (pre post : list string)
    (first line content : string) (d : list (string * json)) :
  read_request chunks EmptyString = Ok request ->
  parse_request request = Ok (pre ++ line :: post, content) ->
  head (pre ++ line :: post) = Some first ->
  Py.slice_to 4 first = "POST" ->
  Forall (fun h => Py.contains "Content-Type: " h = false) pre ->
  Py.contains "Content-Type: " line = true ->
  Py.slice_from 14 line = "application/json" ->
  json_loads content = Some (JDict d) ->
  assoc "state" d = None ->
  listen (chunks :: conns) w =
    (Raise KeyError,
     World (Some "application/json") (Some (JDict d)) false (trace w ++ [Accept])).
Proof.
  intros Hread Hparse Hfirst Hpost Hpre Hline Hvalue Hload Hstate.
  apply listen_raise.
  rewrite (serve_handle _ _ _ Hread), (handle_parsed _ _ _ _ _ Hparse Hfirst), Hpost.
  replace (negb ("POST" =? "POST")%string) with false by reflexivity.
  rewrite (process_post_json _ _ _ _ _ Hpre Hline Hvalue).
  cbn [content_type data closed trace].
  now rewrite (process_json_missing_state _ _ _ Hload Hstate).
Qed.

Lemma missing_state_raises_KeyError_example :
  listen [[post_json "{}"]; [post_json body_idle]] boot =
    (Raise KeyError, World (Some "application/json") (Some (JDict [])) false [Accept]).
Proof.
  apply (missing_state_raises_KeyError (rt := reference_runtime) boot [post_json "{}"]
           [[post_json body_idle]] (post_json "{}") ["POST /alert HTTP/1.1"; "Host: alarm"] []
           "POST /alert HTTP/1.1" "Content-Type: application/json" "{}" []);
    try reflexivity.
  repeat constructor.
Defined.

(** C6, as stated: the request line [POSTAL /alert HTTP/1.1] has the leading
    token POSTAL, which is not POST, and the request is answered with 204
    after the buzzer has been driven, not with 405. *)
Lemma postal_request_is_dispatched :
  leading_token "POSTAL /alert HTTP/1.1" = "POSTAL"
  /\ leading_token "POSTAL /alert HTTP/1.1" <> "POST"
  /\ serve [postal_request] boot =
       (Ok tt, World (Some "application/json") (Some (JDict [("state", JStr "alerting")])) true
                     [Accept; Alarm 5000 500 100; Send status_204; Close]).
Proof. repeat split; try discriminate; vm_compute; reflexivity. Qed.

(** C6, amended. For a request that has been read (its chunks decode) and
    parsed (the split at the blank-line marker gives exactly two pieces), the
    method check reads the first four characters of the first header line.
    When they are not POST the iteration sends 405, closes the connection and
    does nothing else: no local is assigned, the buzzer is not called.  When
    they are POST the iteration goes on to the content-type step. *)
Theorem method_check_reads_four_characters {rt : Runtime} (w : world) (chunks : list string)
    (request : string) (headers : list string) (content : string) :
  read_request chunks EmptyString = Ok request ->
  parse_request request = Ok (headers, content) ->
  exists first : string,
    head headers = Some first
    /\ (Py.slice_to 4 first <> "POST" ->
        serve chunks w =
          (Ok tt, World (content_type w) (data w) true
                        (trace w ++ [Accept; Send status_405; Close])))
    /\ (Py.slice_to 4 first = "POST" ->
        serve chunks w =
          process_post headers content
            (World (content_type w) (data w) false (trace w ++ [Accept]))).
Proof.
  intros Hread Hparse. destruct (parse_request_headers _ _ _ Hparse) as [first Hfirst].
  exists first. split; [exact Hfirst|].
  rewrite (serve_handle _ _ _ Hread), (handle_parsed _ _ _ _ _ Hparse Hfirst).
  split; intros Hm.
  - apply String.eqb_neq in Hm. rewrite Hm. cbn [negb].
    erewrite send_open by reflexivity. cbn. now rewrite <- app_assoc.
  - apply String.eqb_eq in Hm. now rewrite Hm.
Qed.

Lemma method_check_reads_four_characters_example :
  exists first : string,
    head ["GET / HTTP/1.1"; "Host: alarm"] = Some first
    /\ (Py.slice_to 4 first <> "POST" ->
        serve [req "GET / HTTP/1.1" ["Host: alarm"] EmptyString] boot =
          (Ok tt, World None None true [Accept; Send status_405; Close]))
    /\ (Py.slice_to 4 first = "POST" ->
        serve [req "GET / HTTP/1.1" ["Host: alarm"] EmptyString] boot =
          process_post ["GET / HTTP/1.1"; "Host: alarm"] EmptyString
            (World None None false [Accept])).
Proof.
  exact (method_check_reads_four_characters (rt := reference_runtime) boot
           [req "GET / HTTP/1.1" ["Host: alarm"] EmptyString]
           (req "GET / HTTP/1.1" ["Host: alarm"] EmptyString)
           ["GET / HTTP/1.1"; "Host: alarm"] EmptyString eq_refl eq_refl).
Defined.

(** ** Settings *)

Lemma assoc_keys {A} (k : string) (d : list (string * A)) (v : A) :
  assoc k d = Some v -> (k, v) ∈ d.
Proof.
  induction d as [|[k' v'] d IH]; simpl; [discriminate|].
  destruct (String.eqb_spec k k') as [->|_].
  - intros [= ->]. now left.
  - intros H. right. now apply IH.
Qed.

(** What the file contributes: raw text only, and only under keys of the
    schema. *)
Lemma read_line_raw (model : list (string * model_entry)) (st st' : gmap string value)
    (i : string) :
  read_line model st i = Ok st' ->
  map_Forall (fun _ v => is_raw v) st ->
  dom st ⊆ list_to_set model.*1 ->
  map_Forall (fun _ v => is_raw v) st' /\ dom st' ⊆ list_to_set model.*1.
Proof.
  unfold read_line. intros H Hraw Hdom.
  destruct (Py.index _ 0) as [key|]; [|discriminate].
  destruct (assoc key model) as [m|] eqn:Hkey; [|injection H as <-; now split].
  destruct (Py.index _ 1) as [v|]; [|discriminate].
  injection H as <-. split.
  - apply map_Forall_insert_2; [now exists v|exact Hraw].
  - rewrite dom_insert. apply assoc_keys in Hkey.
    assert (key ∈ model.*1) by (apply list_elem_of_fmap; now exists (key, m)).
    apply union_subseteq. split; [|exact Hdom].
    now apply singleton_subseteq_l, elem_of_list_to_set.
Qed.

Lemma read_lines_raw (model : list (string * model_entry)) (lines : list string) :
  forall st raw : gmap string value,
    read_lines model st lines = Ok raw ->
    map_Forall (fun _ v => is_raw v) st ->
    dom st ⊆ list_to_set model.*1 ->
    map_Forall (fun _ v => is_raw v) raw /\ dom raw ⊆ list_to_set model.*1.
Proof.
  induction lines as [|i lines IH]; intros st raw; simpl.
  - intros [= <-]. now split.
  - destruct (read_line model st i) as [st'|] eqn:Hline; [|discriminate].
    intros Hrest Hraw Hdom.
    destruct (read_line_raw _ _ _ _ Hline Hraw Hdom). now apply (IH st').
Qed.

(** A line whose key is not in the schema changes nothing. *)
Lemma unknown_key_ignored (model : list (string * model_entry)) (st : gmap string value)
    (i key : string) :
  Py.index (Py.split "=" (Py.remove_char Py.CR (Py.remove_char Py.LF i))) 0 = Ok key ->
  assoc key model = None ->
  read_line model st i = Ok st.
Proof. intros Hkey Hnone. unfold read_line. now rewrite Hkey, Hnone. Qed.

Section Validation.
Context {rt : Runtime}.

Lemma validate_entry_ok (i : string) (m : model_entry) (st st' : gmap string value) :
  validate_entry i m st = Ok st' ->
  exists v, st' = <[i := v]> st /\ stored m (st !! i) v.
Proof.
  unfold validate_entry, stored, fatal.
  destruct (st !! i) as [[| | |raw]|]; try discriminate.
  - destruct (match e_regex m with Some _ => _ | None => _ end); [discriminate|].
    destruct (coerce (e_type m) raw) as [v|]; [|discriminate].
    intros [= <-]. now exists v.
  - destruct (e_required m); [discriminate|].
    destruct (e_required_if m) as [other|]; [|intros [= <-]; now eexists].
    destruct (negb _); [|intros [= <-]; now eexists].
    destruct (st !! other) as [v|]; [|discriminate].
    destruct (truthy v); [discriminate|]. intros [= <-]. now eexists.
Qed.

(** Validation adds the keys of the schema and touches no other key; under
    each key of the schema it leaves what [stored] describes. *)
Lemma validate_ok (model : list (string * model_entry)) :
  NoDup model.*1 ->
  forall st cfg : gmap string value,
    validate model st = Ok cfg ->
    dom cfg = dom st ∪ list_to_set model.*1
    /\ (forall k, k ∉ model.*1 -> cfg !! k = st !! k)
    /\ (forall i m, (i, m) ∈ model -> exists v, cfg !! i = Some v /\ stored m (st !! i) v).
Proof.
  induction model as [|[i m] model IH]; intros Hnd st cfg; simpl.
  - intros [= <-]. split; [now rewrite (right_id_L ∅ (∪))|]. split; [done|].
    intros ? ? H. inversion H.
  - apply NoDup_cons in Hnd as [Hi Hnd].
    destruct (validate_entry i m st) as [st1|] eqn:Hstep; [|discriminate].
    intros Hrest. apply validate_entry_ok in Hstep as (v & -> & Hv).
    destruct (IH Hnd _ _ Hrest) as (Hdom & Hother & Hin).
    split.
    { rewrite Hdom, dom_insert_L. cbn [fmap list_fmap list_to_set fst].
      now rewrite (comm_L (∪) {[i]} (dom st)), <- (assoc_L (∪)). }
    split.
    + intros k Hk. apply not_elem_of_cons in Hk as [Hne Hk].
      rewrite (Hother k Hk). now apply lookup_insert_ne.
    + intros j mj Hj. apply elem_of_cons in Hj as [[= -> ->]|Hj].
      * exists v. split; [|exact Hv]. rewrite (Hother i Hi). apply lookup_insert_eq.
      * destruct (Hin j mj Hj) as (vj & Hvj & Hs). exists vj. split; [exact Hvj|].
        assert (i <> j) as Hne.
        { intros ->. apply Hi. apply list_elem_of_fmap. now exists (j, mj). }
        now rewrite lookup_insert_ne in Hs.
Qed.

End Validation.

Lemma settings_model_NoDup : NoDup settings_model.*1.
Proof. apply NoDup_ListNoDup. vm_compute. repeat (constructor; [simpl; intuition discriminate|]). constructor. Qed.

(** When [readSettings] returns, the file was read into a dictionary of raw
    text under keys of the schema, and that dictionary was validated. *)
Lemma readSettings_inv {rt : Runtime} (lines : list string) (cfg : gmap string value) :
  readSettings (Some lines) = Ok cfg ->
  exists raw : gmap string value,
    read_lines settings_model ∅ lines = Ok raw
    /\ dom raw ⊆ list_to_set settings_model.*1
    /\ validate settings_model raw = Ok cfg.
Proof.
  unfold readSettings.
  destruct (read_lines settings_model ∅ lines) as [raw|] eqn:Hread; [|discriminate].
  intros Hval. exists raw. split; [reflexivity|]. split; [|exact Hval].
  destruct (read_lines_raw _ _ _ _ Hread) as [_ Hdom];
    [apply map_Forall_empty|rewrite dom_empty; apply empty_subseteq|exact Hdom].
Qed.

(** C10. When [readSettings] returns, the configuration has the keys of the
    schema and no other, one entry for each; the entry of a key is the
    coerced text of the file where the file supplied the key, and the
    default of the schema where it did not. *)
Theorem validated_settings_cover_schema {rt : Runtime} (lines : list string)
    (cfg : gmap string value) :
  readSettings (Some lines) = Ok cfg ->
  exists raw : gmap string value,
    read_lines settings_model ∅ lines = Ok raw
    /\ dom cfg = list_to_set settings_model.*1
    /\ size cfg = length settings_model
    /\ forall i m, (i, m) ∈ settings_model ->
         match raw !! i with
         | Some (VStr text) => cfg !! i = coerce (e_type m) text
         | Some _ => False
         | None => cfg !! i = Some (e_default m)
         end.
Proof.
  intros Hcfg. destruct (readSettings_inv _ _ Hcfg) as (raw & Hread & Hdom & Hval).
  exists raw. split; [exact Hread|].
  destruct (validate_ok _ settings_model_NoDup _ _ Hval) as (Hcfg' & _ & Hin).
  assert (dom cfg = list_to_set settings_model.*1) as Hkeys
    by (rewrite Hcfg'; now apply subseteq_union_1_L).
  split; [exact Hkeys|]. split.
  - rewrite <- size_dom, Hkeys, size_list_to_set by apply settings_model_NoDup.
    now rewrite length_fmap.
  - intros i m Him. destruct (Hin i m Him) as (v & Hv & Hs). unfold stored in Hs.
    destruct (raw !! i) as [[| | |text]|]; try contradiction; congruence.
Qed.

Section Steps.
Context {rt : Runtime}.

Lemma validate_cons (i : string) (m : model_entry)
    (model : list (string * model_entry)) (st : gmap string value) :
  validate ((i, m) :: model) st =
    match validate_entry i m st with
    | Ok st' => validate model st'
    | Raise e => Raise e
    end.
Proof. reflexivity. Qed.

(** On raw text, and with the key named by [required_if] already in the
    dictionary, an iteration either exits or stores a value. *)
Lemma validate_entry_cases (i : string) (m : model_entry) (st : gmap string value) :
  (forall v, st !! i = Some v -> is_raw v) ->
  (forall other, e_required_if m = Some other -> is_Some (st !! other)) ->
  (exists r, validate_entry i m st = Raise (SystemExit r))
  \/ (exists v, validate_entry i m st = Ok (<[i := v]> st) /\ stored m (st !! i) v).
Proof.
  intros Hraw Hdep. unfold validate_entry, stored, fatal.
  destruct (st !! i) as [cur|].
  - destruct (Hraw cur eq_refl) as [text ->].
    destruct (match e_regex m with Some _ => _ | None => _ end); [left; eauto|].
    destruct (coerce (e_type m) text) as [v|]; [right; eauto|left; eauto].
  - destruct (e_required m); [left; eauto|].
    destruct (e_required_if m) as [other|]; [|right; eauto].
    destruct (negb _); [|right; eauto].
    destruct (Hdep other eq_refl) as [v ->].
    destruct (truthy v); [left; eauto|right; eauto].
Qed.

(** An iteration stores a value when the text of the file passes the
    pattern and the coercion, or when the key is left out, is not required
    and the key named by [required_if] holds a false value. *)
Lemma validate_entry_passes (i : string) (m : model_entry) (st : gmap string value) :
  (forall v, st !! i = Some v -> is_raw v) ->
  (forall text pattern, st !! i = Some (VStr text) -> e_regex m = Some pattern ->
     e_type m = t_str -> re_match pattern text = true) ->
  (forall text, st !! i = Some (VStr text) -> is_Some (coerce (e_type m) text)) ->
  (st !! i = None -> e_required m = false) ->
  (st !! i = None -> forall other, e_required_if m = Some other ->
     exists v, st !! other = Some v /\ truthy v = false) ->
  exists v, validate_entry i m st = Ok (<[i := v]> st) /\ stored m (st !! i) v.
Proof.
  intros Hraw Hregex Hcoerce Hreq Hdep. unfold validate_entry, stored, fatal.
  destruct (st !! i) as [cur|].
  - destruct (Hraw cur eq_refl) as [text ->].
    destruct (Hcoerce text eq_refl) as [v ->].
    destruct (e_regex m) as [pattern|]; [|eauto].
    destruct (e_type m) eqn:Ht; cbn [type_eqb andb]; [|eauto|eauto].
    rewrite (Hregex text pattern eq_refl eq_refl eq_refl). eauto.
  - rewrite (Hreq eq_refl).
    destruct (e_required_if m) as [other|]; [|eauto].
    destruct (negb _); [|eauto].
    destruct (Hdep eq_refl other eq_refl) as (v & -> & ->). eauto.
Qed.

End Steps.

Ltac lookups :=
  repeat (rewrite lookup_insert_eq || rewrite lookup_insert_ne by discriminate).

Ltac lookups_in H :=
  repeat (rewrite lookup_insert_eq in H || rewrite lookup_insert_ne in H by discriminate).

Ltac schema_fields := cbn [e_type e_required e_required_if e_default e_regex coerce].

(** An iteration of the validation loop that may exit, on a state built from
    the dictionary [raw] of the file. *)
Ltac step_cases Hraw :=
  rewrite validate_cons;
  lazymatch goal with
  | |- context [validate_entry ?k ?m ?st] =>
      let r := fresh "r" in
      let v := fresh "v" in
      let Hs := fresh "Hs" in
      let Hv := fresh "Hv" in
      let Hlk := fresh "Hlk" in
      destruct (validate_entry_cases k m st) as [[r Hs]|(v & Hs & Hv)];
      [ intros ? Hlk; lookups_in Hlk; exact (Hraw _ _ Hlk)
      | schema_fields; intros ? Hlk;
        first [discriminate Hlk | injection Hlk as <-; lookups; eauto]
      | rewrite Hs; eauto
      | rewrite Hs; lookups_in Hv ]
  end.

(** An iteration of the validation loop that stores a value; [pattern_ok]
    and [integer_ok] are what is known of the patterns and of the integers
    of the file. *)
Ltac step_passes Hraw pattern_ok integer_ok :=
  rewrite validate_cons;
  lazymatch goal with
  | |- context [validate_entry ?k ?m ?st] =>
      let v := fresh "v" in
      let Hv := fresh "Hv" in
      let Hlk := fresh "Hlk" in
      let Hp := fresh "Hp" in
      let Ht := fresh "Ht" in
      destruct (validate_entry_passes k m st) as (v & -> & Hv);
      [ intros ? Hlk; lookups_in Hlk; exact (Hraw _ _ Hlk)
      | schema_fields; intros ? ? Hlk Hp Ht; lookups_in Hlk;
        first [discriminate Hp | discriminate Ht
              | injection Hp as <-; exact (pattern_ok _ Hlk)]
      | schema_fields; intros ? Hlk; lookups_in Hlk;
        first [eexists; reflexivity
              | destruct (integer_ok k _ ltac:(repeat constructor) Hlk) as [? ->];
                eexists; reflexivity]
      | schema_fields; intros Hlk; lookups_in Hlk; first [reflexivity | congruence]
      | schema_fields; intros Hlk ? Hp;
        first [discriminate Hp
              | injection Hp as <-; lookups; eexists; split; reflexivity]
      | lookups_in Hv ]
  end.

(** The iteration for ADDR when the file leaves ADDR out: it exits exactly
    when the STATIC already stored is true. *)
Lemma addr_entry_conditional {rt : Runtime} (m : model_entry) (st : gmap string value)
    (static : bool) :
  assoc "ADDR" settings_model = Some m ->
  st !! "ADDR" = None ->
  st !! "STATIC" = Some (VBool static) ->
  validate_entry "ADDR" m st =
    if static then fatal (RequiredBecause "ADDR" "STATIC")
    else Ok (<["ADDR" := VNone]> st).
Proof.
  intros [= <-] Haddr Hstatic. unfold validate_entry. schema_fields.
  rewrite Haddr, Hstatic. reflexivity.
Qed.

(** C9, as stated: a file that sets STATIC to FALSE and leaves ADDR out,
    and leaves SSID out as well, does not validate; and a file that sets
    STATIC to TRUE, leaves ADDR out and has a line that holds the key MASK
    and nothing else does not come to a fatal exit: the reading loop raises
    [IndexError] before validation starts. *)
Lemma static_false_without_ssid_exits :
  read_lines settings_model ∅ lines_static_only = Ok raw_static_only
  /\ raw_static_only !! "STATIC" = Some (VStr "FALSE")
  /\ raw_static_only !! "ADDR" = None
  /\ readSettings (Some lines_static_only) = Raise (SystemExit (RequiredMissing "SSID"))
  /\ readSettings (Some lines_static_bare) = Raise IndexError.
Proof. repeat split; vm_compute; reflexivity. Qed.

(** C9, amended. For a file that the reading loop gets through (no line is
    a key of the schema with nothing after it, which raises [IndexError]
    before validation starts) and that leaves ADDR out: if STATIC is supplied
    and its upper-cased text is TRUE, [readSettings] ends in a fatal exit; if
    STATIC is left out or supplied with any other text, and the rest of the
    file passes its own checks (SSID and KEY supplied, the integer settings
    readable as integers, ADDR_FAMILY matching its pattern), [readSettings]
    returns and ADDR holds the default of the schema. *)
Theorem addr_required_only_when_static {rt : Runtime} (lines : list string)
    (raw : gmap string value) :
  read_lines settings_model ∅ lines = Ok raw ->
  raw !! "ADDR" = None ->
  (forall text, raw !! "STATIC" = Some (VStr text) -> Py.upper text = "TRUE" ->
     exists r, readSettings (Some lines) = Raise (SystemExit r))
  /\ ((forall text, raw !! "STATIC" = Some (VStr text) -> Py.upper text <> "TRUE") ->
      is_Some (raw !! "SSID") ->
      is_Some (raw !! "KEY") ->
      (forall k text, k ∈ ["MAX_CON"; "TIMEOUT"; "PORT"] ->
         raw !! k = Some (VStr text) -> is_Some (int_of_str text)) ->
      (forall text, raw !! "ADDR_FAMILY" = Some (VStr text) ->
         re_match "^(INET|INET6)$" text = true) ->
      exists cfg, readSettings (Some lines) = Ok cfg
                  /\ cfg !! "ADDR" = e_default <$> assoc "ADDR" settings_model).
Proof.
  intros Hread Haddr.
  destruct (read_lines_raw _ _ _ _ Hread) as [Hraw _];
    [apply map_Forall_empty|rewrite dom_empty; apply empty_subseteq|].
  unfold readSettings. rewrite Hread. unfold settings_model. split.
  - intros text Hstatic Hup.
    do 6 step_cases Hraw.
    match goal with
    | H : stored _ (_ !! "STATIC") _ |- _ =>
        rewrite Hstatic in H; cbn in H; injection H as <-; rewrite Hup
    end.
    rewrite validate_cons. unfold validate_entry. schema_fields. lookups.
    rewrite Haddr. eexists. reflexivity.
  - intros Hstatic [ssid Hssid] [key Hkey] Hint Hfamily.
    do 6 step_passes Hraw Hfamily Hint.
    match goal with
    | H : stored _ (_ !! "STATIC") ?v |- _ =>
        assert (v = VBool false) as ->;
        [destruct (raw !! "STATIC") as [[| | |text]|]; cbn in H; try contradiction;
         [injection H as <-; f_equal; apply String.eqb_neq; now apply Hstatic|exact H]|]
    end.
    step_passes Hraw Hfamily Hint.
    match goal with
    | H : stored _ (_ !! "ADDR") ?v |- _ => rewrite Haddr in H; cbn in H; subst v
    end.
    do 3 step_passes Hraw Hfamily Hint.
    eexists. split; [reflexivity|]. lookups. reflexivity.
Qed.

Lemma addr_required_only_when_static_example :
  (exists r, readSettings (Some lines_static) = Raise (SystemExit r))
  /\ (exists cfg, readSettings (Some lines_dhcp) = Ok cfg /\ cfg !! "ADDR" = Some VNone).
Proof.
  split.
  - exact (proj1 (addr_required_only_when_static (rt := reference_runtime)
                    lines_static raw_static eq_refl eq_refl) "TRUE" eq_refl eq_refl).
  - apply (proj2 (addr_required_only_when_static (rt := reference_runtime)
                    lines_dhcp raw_dhcp eq_refl eq_refl)).
    + intros text H. vm_compute in H. injection H as <-. discriminate.
    + eexists. reflexivity.
    + eexists. reflexivity.
    + intros k text Hk H.
      repeat (apply elem_of_cons in Hk as [->|Hk]); try (vm_compute in H; discriminate H).
      * vm_compute in H. injection H as <-. eexists. reflexivity.
      * inversion Hk.
    + intros text H. vm_compute in H. discriminate H.
Defined.

Section Fatal.
Context {rt : Runtime}.

Lemma validate_entry_blames (i : string) (m : model_entry) (st : gmap string value)
    (r : exit_reason) :
  validate_entry i m st = Raise (SystemExit r) -> blames r i m.
Proof.
  unfold validate_entry, fatal.
  destruct (st !! i) as [[| | |raw]|]; try discriminate.
  - destruct (e_regex m) as [pattern|].
    + destruct (e_type m) eqn:Ht; cbn [type_eqb andb].
      * destruct (negb _); [intros [= <-]; now split|].
        cbn. intros [=].
      * destruct (coerce t_int raw); [discriminate|]. intros [= <-]. now split.
      * cbn. intros [=].
    + destruct (e_type m) eqn:Ht; cbn; try discriminate.
      destruct (int_of_str raw); cbn; [discriminate|]. intros [= <-]. now split.
  - destruct (e_required m) eqn:Hr; [intros [= <-]; now split|].
    destruct (e_required_if m) as [other|] eqn:Hif; [|discriminate].
    destruct (negb _); [|discriminate].
    destruct (st !! other) as [v|]; [|discriminate].
    destruct (truthy v); [|discriminate]. intros [= <-]. now split.
Qed.

(** A fatal exit of the validation loop names an entry of the schema that
    can cause it. *)
Lemma validate_blames (model : list (string * model_entry)) (r : exit_reason) :
  forall st : gmap string value,
    validate model st = Raise (SystemExit r) ->
    exists i m, (i, m) ∈ model /\ blames r i m.
Proof.
  induction model as [|[i m] model IH]; intros st; simpl; [discriminate|].
  destruct (validate_entry i m st) as [st'|e] eqn:Hstep.
  - intros H. destruct (IH _ H) as (j & mj & Hj & Hb). exists j, mj. split; [now right|exact Hb].
  - intros [= ->]. exists i, m. split; [now left|]. now apply validate_entry_blames in Hstep.
Qed.

End Fatal.

Lemma static_entry (m : model_entry) :
  ("STATIC", m) ∈ settings_model ->
  m = Entry t_bool false None (VBool false) (Some "^(TRUE|FALSE)$").
Proof.
  unfold settings_model. intros H.
  repeat (apply elem_of_cons in H as [H|H];
          [first [discriminate H | injection H as ->; reflexivity]|]).
  inversion H.
Qed.

(** C8, as stated: the file sets STATIC to [yes], which does not match
    the pattern, and [readSettings] returns with STATIC false. *)
Lemma static_yes_is_accepted :
  re_match "^(TRUE|FALSE)$" "yes" = false
  /\ readSettings (Some lines_yes) = Ok cfg_yes
  /\ cfg_yes !! "STATIC" = Some (VBool false).
Proof. repeat split; vm_compute; reflexivity. Qed.

(** C8, amended. Whatever text the file gives STATIC, the pattern of the
    entry is not applied to it (patterns are applied to entries of type
    [str] only): the iteration for STATIC stores the boolean "the upper-cased
    text is TRUE", [readSettings] never exits with a pattern or type
    complaint about STATIC, and when it returns STATIC holds that boolean. *)
Theorem static_pattern_is_not_applied {rt : Runtime} (lines : list string)
    (raw : gmap string value) (text : string) :
  read_lines settings_model ∅ lines = Ok raw ->
  raw !! "STATIC" = Some (VStr text) ->
  (forall m st, ("STATIC", m) ∈ settings_model -> st !! "STATIC" = Some (VStr text) ->
     validate_entry "STATIC" m st =
       Ok (<["STATIC" := VBool (String.eqb (Py.upper text) "TRUE")]> st))
  /\ (forall r, readSettings (Some lines) = Raise (SystemExit r) ->
        r <> RegexMismatch "STATIC" /\ r <> WrongType "STATIC")
  /\ (forall cfg, readSettings (Some lines) = Ok cfg ->
        cfg !! "STATIC" = Some (VBool (String.eqb (Py.upper text) "TRUE"))).
Proof.
  intros Hread Hstatic. split; [|split].
  - intros m st Hm Hst. rewrite (static_entry m Hm).
    unfold validate_entry. now rewrite Hst.
  - intros r. unfold readSettings. rewrite Hread. intros Hfatal.
    apply validate_blames in Hfatal as (i & m & Him & Hb).
    split; intros ->; destruct Hb as [<- Ht];
      rewrite (static_entry m Him) in Ht; discriminate Ht.
  - intros cfg Hcfg.
    destruct (readSettings_inv lines cfg Hcfg) as (raw' & Hread' & _ & Hval).
    rewrite Hread in Hread'. injection Hread' as <-.
    destruct (validate_ok _ settings_model_NoDup _ _ Hval) as (_ & _ & Hin).
    destruct (Hin "STATIC" _ ltac:(unfold settings_model; repeat constructor))
      as (v & Hv & Hs).
    rewrite Hstatic in Hs. cbn in Hs. congruence.
Qed.

Lemma static_pattern_is_not_applied_example :
  cfg_yes !! "STATIC" = Some (VBool false).
Proof.
  exact (proj2 (proj2 (static_pattern_is_not_applied (rt := reference_runtime)
                         lines_yes raw_yes "yes" eq_refl eq_refl)) cfg_yes eq_refl).
Defined.

Lemma validated_settings_cover_schema_example :
  exists raw : gmap string value,
    read_lines settings_model ∅ lines_dhcp = Ok raw
    /\ dom cfg_dhcp = list_to_set settings_model.*1
    /\ size cfg_dhcp = length settings_model
    /\ forall i m, (i, m) ∈ settings_model ->
         match raw !! i with
         | Some (VStr text) => cfg_dhcp !! i = coerce (e_type m) text
         | Some _ => False
         | None => cfg_dhcp !! i = Some (e_default m)
         end.
Proof.
  exact (validated_settings_cover_schema (rt := reference_runtime) lines_dhcp cfg_dhcp eq_refl).
Defined.

(** * Further properties *)

(** ** The listener: one status line for each connection *)

Lemma run_trace_app (tr1 tr2 : list event) (s : conn_state) :
  run_trace s (tr1 ++ tr2) =
    match run_trace s tr1 with
    | Some s' => run_trace s' tr2
    | None => None
    end.
Proof.
  revert s. induction tr1 as [|e tr1 IH]; intros s; simpl; [reflexivity|].
  destruct (step_event s e); [apply IH|reflexivity].
Qed.

Lemma keeps_order_bind {A B} (m : M A) (k : A -> M B) :
  keeps_order m -> (forall a, keeps_order (k a)) -> keeps_order (bind m k).
Proof.
  intros Hm Hk w Hw. unfold bind. specialize (Hm w Hw).
  destruct (m w) as [[a|e] w']; [now apply Hk|exact Hm].
Qed.

Lemma keeps_order_lift {A} (r : result A) : keeps_order (lift r).
Proof. now intros w Hw. Qed.

Lemma keeps_order_ret {A} (a : A) : keeps_order (ret a).
Proof. now intros w Hw. Qed.

Lemma keeps_order_send (code : Z) :
  code ∈ [204; 400; 405; 500] -> keeps_order (_send code).
Proof.
  intros Hcode w Hw.
  assert (exists reason, CODES_get CODES code = Some reason
                         /\ is_status (status_line code reason) = true) as (reason & Hget & Hst).
  { repeat (apply elem_of_cons in Hcode as [->|Hcode]); [eexists; split; reflexivity ..|].
    inversion Hcode. }
  destruct (closed w) eqn:Hc.
  - now rewrite (send_closed _ _ _ Hget Hc).
  - rewrite (send_open _ _ _ Hget Hc). unfold orderly in *. cbn [snd trace closed].
    rewrite run_trace_app, Hw, Hc. cbn. now rewrite Hst.
Qed.

Lemma keeps_order_alarm (a b c : Z) : keeps_order (alarm a b c).
Proof.
  intros w Hw. unfold orderly in *. cbn. rewrite run_trace_app, Hw.
  now destruct (closed w).
Qed.

Lemma keeps_order_accept : keeps_order accept.
Proof.
  intros w Hw. unfold orderly in *. cbn. rewrite run_trace_app, Hw.
  now destruct (closed w).
Qed.

Section Order.
Context {rt : Runtime}.

Lemma keeps_order_process_json (content : string) : keeps_order (process_json content).
Proof.
  unfold process_json. apply keeps_order_bind.
  - destruct (json_loads content); [now intros w Hw|].
    apply keeps_order_send. set_solver.
  - intros _. apply keeps_order_bind; [intros w Hw; unfold get_data; now destruct (data w)|].
    intros d. apply keeps_order_bind; [apply keeps_order_lift|].
    intros v. apply keeps_order_bind.
    + destruct (json_eq_str v "alerting"); [apply keeps_order_alarm|apply keeps_order_ret].
    + intros _. apply keeps_order_send. set_solver.
Qed.

Lemma keeps_order_process_post (headers : list string) (content : string) :
  keeps_order (process_post headers content).
Proof.
  unfold process_post. apply keeps_order_bind.
  - destruct (negb _); [|apply keeps_order_send; set_solver].
    destruct (Py.index headers _) as [line|[]]; try (now intros w Hw).
    apply keeps_order_send. set_solver.
  - intros _. apply keeps_order_bind.
    + intros w Hw. unfold get_content_type. now destruct (content_type w).
    + intros ct. destruct (negb _); [apply keeps_order_send; set_solver|].
      apply keeps_order_process_json.
Qed.

Lemma keeps_order_serve (chunks : list string) : keeps_order (serve chunks).
Proof.
  unfold serve. apply keeps_order_bind; [apply keeps_order_accept|]. intros _.
  apply keeps_order_bind; [apply keeps_order_lift|]. intros request.
  unfold handle. apply keeps_order_bind; [apply keeps_order_lift|]. intros [headers content].
  apply keeps_order_bind; [apply keeps_order_lift|]. intros first.
  destruct (negb _); [apply keeps_order_send; set_solver|apply keeps_order_process_post].
Qed.

Lemma keeps_order_listen (conns : list (list string)) : keeps_order (listen conns).
Proof.
  induction conns as [|chunks conns IH]; [apply keeps_order_ret|].
  cbn [listen]. apply keeps_order_bind; [apply keeps_order_serve|]. intros _. exact IH.
Qed.

End Order.

(** In a trace of that kind there are no more payloads than accepted
    connections. *)
Lemma run_trace_counts (tr : list event) :
  forall s s' : conn_state,
    run_trace s tr = Some s' ->
    (length (List.filter is_send tr) + (if s' is Open then 1 else 0)
     <= length (List.filter is_accept tr) + (if s is Open then 1 else 0))%nat.
Proof.
  induction tr as [|e tr IH]; intros s s'; simpl.
  - intros [= ->]. lia.
  - destruct (step_event s e) as [s1|] eqn:Hstep; [|discriminate].
    intros Hrun. specialize (IH _ _ Hrun).
    destruct e, s; simpl in Hstep; try discriminate;
      try (destruct (is_status payload); [|discriminate]);
      injection Hstep as <-; simpl in *; lia.
Qed.

(** X1. From an orderly state, whatever connections arrive and however the
    run ends, the trace of the listener stays orderly: every payload is the
    status line of 204, 400, 405 or 500, goes to an accepted connection that
    has had none yet and is followed at once by the close; so there are never
    more payloads than accepted connections. *)
Theorem one_status_line_per_connection {rt : Runtime} (conns : list (list string))
    (w : world) :
  orderly w ->
  orderly (listen conns w).2
  /\ (length (List.filter is_send (trace (listen conns w).2))
      <= length (List.filter is_accept (trace (listen conns w).2)))%nat.
Proof.
  intros Hw. pose proof (keeps_order_listen conns w Hw) as Hord. split; [exact Hord|].
  pose proof (run_trace_counts _ _ _ Hord) as Hc. simpl in Hc.
  destruct (closed (listen conns w).2); lia.
Qed.

Lemma one_status_line_per_connection_example :
  orderly (listen [[post_json "not json"]; [post_json body_idle]] boot).2
  /\ (length (List.filter is_send
                (trace (listen [[post_json "not json"]; [post_json body_idle]] boot).2))
      <= length (List.filter is_accept
                   (trace (listen [[post_json "not json"]; [post_json body_idle]] boot).2)))%nat.
Proof.
  exact (one_status_line_per_connection (rt := reference_runtime)
           [[post_json "not json"]; [post_json body_idle]] boot eq_refl).
Defined.

(** ** The listener: the remaining answers *)

Section Answers.
Context {rt : Runtime}.

(** What an iteration comes to for a POST whose first [Content-Type: ] line
    is found: the JSON step when the line reads [application/json], and a
    400 otherwise. *)
Lemma serve_content_type (w : world) (chunks : list string) (request : string)
    (pre post : list string) (first line content : string) :
  read_request chunks EmptyString = Ok request ->
  parse_request request = Ok (pre ++ line :: post, content) ->
  head (pre ++ line :: post) = Some first ->
  Py.slice_to 4 first = "POST" ->
  Forall (fun h => Py.contains "Content-Type: " h = false) pre ->
  Py.contains "Content-Type: " line = true ->
  serve chunks w =
    if String.eqb (Py.slice_from 14 line) "application/json"
    then process_json content
           (World (Some (Py.slice_from 14 line)) (data w) false (trace w ++ [Accept]))
    else (Ok tt, World (Some (Py.slice_from 14 line)) (data w) true
                       (trace w ++ [Accept; Send status_400; Close])).
Proof.
  intros Hread Hparse Hfirst Hpost Hpre Hline.
  rewrite (serve_handle _ _ _ Hread), (handle_parsed _ _ _ _ _ Hparse Hfirst), Hpost.
  replace (negb ("POST" =? "POST")%string) with false by reflexivity.
  unfold process_post, getSubstringFromList.
  rewrite (getSubstringFromList_from_first 0 pre post line _ Hpre Hline).
  rewrite Z.add_0_l, index_middle.
  destruct (Z.eqb_spec (Z.of_nat (length pre)) (-1)) as [?|_]; [lia|].
  cbn [negb]. unfold bind at 1. unfold set_content_type at 1.
  unfold bind at 1. unfold get_content_type at 1. cbn [content_type data closed trace].
  destruct (String.eqb (Py.slice_from 14 line) "application/json"); cbn [negb]; [reflexivity|].
  erewrite send_open by reflexivity. cbn [content_type data closed trace].
  now rewrite <- app_assoc.
Qed.

End Answers.

(** X2. A connection whose chunks decode and whose request splits into
    header lines and a body (it holds the blank-line marker once): when it
    is a POST whose first [Content-Type: ] line reads, after its first 14
    characters, anything but [application/json], it is answered with 400 and
    nothing else: the buzzer is not driven, the body is not parsed, and the
    iteration ends normally, so the listener goes on to the next
    connection. *)
Theorem other_content_type_400 {rt : Runtime} (w : world) (chunks : list string)
    (request : string) (pre post : list string) (first line content : string) :
  read_request chunks EmptyString = Ok request ->
  parse_request request = Ok (pre ++ line :: post, content) ->
  head (pre ++ line :: post) = Some first ->
  Py.slice_to 4 first = "POST" ->
  Forall (fun h => Py.contains "Content-Type: " h = false) pre ->
  Py.contains "Content-Type: " line = true ->
  Py.slice_from 14 line <> "application/json" ->
  serve chunks w =
    (Ok tt, World (Some (Py.slice_from 14 line)) (data w) true
                  (trace w ++ [Accept; Send status_400; Close])).
Proof.
  intros Hread Hparse Hfirst Hpost Hpre Hline Hvalue.
  rewrite (serve_content_type _ _ _ _ _ _ _ _ Hread Hparse Hfirst Hpost Hpre Hline).
  apply String.eqb_neq in Hvalue. now rewrite Hvalue.
Qed.

Lemma other_content_type_400_example :
  serve [text_plain_request] boot =
    (Ok tt, World (Some "text/plain") None true [Accept; Send status_400; Close]).
Proof.
  apply (other_content_type_400 (rt := reference_runtime) boot [text_plain_request]
           text_plain_request ["POST /alert HTTP/1.1"] [] "POST /alert HTTP/1.1"
           "Content-Type: text/plain"
           body_alerting); try reflexivity; [repeat constructor|discriminate].
Defined.

(** One quiet POST: a 204 and no buzzer. *)
Lemma serve_quiet_post {rt : Runtime} (chunks : list string) (w : world) :
  quiet_post chunks ->
  exists d : json,
    serve chunks w =
      (Ok tt, World (Some "application/json") (Some d) true
                    (trace w ++ [Accept; Send status_204; Close])).
Proof.
  intros (request & pre & post & first & line & content & d & v & Hread & Hparse & Hfirst
          & Hpost & Hpre & Hline & Hvalue & Hload & Hstate & Hne).
  exists (JDict d).
  rewrite (serve_content_type _ _ _ _ _ _ _ _ Hread Hparse Hfirst Hpost Hpre Hline), Hvalue.
  cbn [String.eqb]. replace ("application/json" =? "application/json")%string with true
    by reflexivity.
  erewrite process_json_other_state by (eassumption || reflexivity).
  cbn [content_type data closed trace]. now rewrite <- app_assoc.
Qed.

(** X3. Any number of quiet POSTs in a row (chunks that decode, a request
    that splits into header lines and a body, the JSON content type on the
    first [Content-Type: ] line, a body that is an object whose [state] is
    there and is not ["alerting"]): each is answered with 204, the buzzer is
    never driven, and the listener ends waiting for the next connection. *)
Theorem quiet_posts_all_answered {rt : Runtime} (conns : list (list string)) :
  Forall quiet_post conns ->
  forall w : world,
    exists w' : world,
      listen conns w = (Ok tt, w')
      /\ trace w' =
           (trace w ++ concat (map (fun _ => [Accept; Send status_204; Close]) conns))%list
      /\ (conns <> [] -> closed w' = true /\ content_type w' = Some "application/json").
Proof.
  induction 1 as [|chunks conns Hq _ IH]; intros w.
  - exists w. split; [reflexivity|]. split; [now rewrite app_nil_r|congruence].
  - destruct (serve_quiet_post chunks w Hq) as [d Hserve].
    cbn [listen]. unfold bind at 1. rewrite Hserve.
    destruct (IH (World (Some "application/json") (Some d) true
                        (trace w ++ [Accept; Send status_204; Close]))) as (w' & Hrun & Htr & Hst).
    exists w'. split; [exact Hrun|]. split.
    + rewrite Htr. cbn [trace map concat]. now rewrite <- app_assoc.
    + intros _. destruct conns as [|c conns]; [|apply Hst; discriminate].
      injection Hrun as <-. now split.
Qed.

Lemma quiet_posts_all_answered_example :
  exists w' : world,
    listen [[post_json body_idle]; [post_json body_idle]] boot = (Ok tt, w')
    /\ trace w' = [Accept; Send status_204; Close; Accept; Send status_204; Close]
    /\ closed w' = true /\ content_type w' = Some "application/json".
Proof.
  assert (quiet_post (rt := reference_runtime) [post_json body_idle]) as Hq.
  { exists (post_json body_idle), ["POST /alert HTTP/1.1"; "Host: alarm"], [],
           "POST /alert HTTP/1.1", "Content-Type: application/json", body_idle,
           [("state", JStr "idle")], (JStr "idle").
    repeat split; try reflexivity. repeat constructor. }
  destruct (quiet_posts_all_answered (rt := reference_runtime)
              [[post_json body_idle]; [post_json body_idle]]
              ltac:(repeat constructor; exact Hq) boot) as (w' & Hrun & Htr & Hst).
  exists w'. split; [exact Hrun|]. split; [exact Htr|]. apply Hst. discriminate.
Defined.

(** X4. A POST, read and split into header lines and a body, with the JSON
    content type, whose body parses to anything but an object (a list, a
    string, a number, [true], [false], [null]): [data["state"]] raises
    [TypeError], nothing is sent, the connection stays open and the listener
    stops. *)
Theorem non_object_body_raises_TypeError {rt : Runtime} (w : world) (chunks : list string)
    (conns : list (list string)) (request : string) (pre post : list string)
    (first line content : string) (d : json) :
  read_request chunks EmptyString = Ok request ->
  parse_request request = Ok (pre ++ line :: post, content) ->
  head (pre ++ line :: post) = Some first ->
  Py.slice_to 4 first = "POST" ->
  Forall (fun h => Py.contains "Content-Type: " h = false) pre ->
  Py.contains "Content-Type: " line = true ->
  Py.slice_from 14 line = "application/json" ->
  json_loads content = Some d ->
  is_dict d = false ->
  listen (chunks :: conns) w =
    (Raise TypeError, World (Some "application/json") (Some d) false (trace w ++ [Accept])).
Proof.
  intros Hread Hparse Hfirst Hpost Hpre Hline Hvalue Hload Hd.
  apply listen_raise.
  rewrite (serve_content_type _ _ _ _ _ _ _ _ Hread Hparse Hfirst Hpost Hpre Hline), Hvalue.
  replace ("application/json" =? "application/json")%string with true by reflexivity.
  unfold process_json. rewrite Hload.
  unfold bind, set_data, get_data, lift. cbn [content_type data closed trace].
  destruct d; try discriminate Hd; reflexivity.
Qed.

Lemma non_object_body_raises_TypeError_example :
  listen [[post_json "[1, 2]"]; [post_json body_idle]] boot =
    (Raise TypeError,
     World (Some "application/json") (Some (JList [JInt 1; JInt 2])) false [Accept]).
Proof.
  apply (non_object_body_raises_TypeError (rt := reference_runtime) boot
           [post_json "[1, 2]"] [[post_json body_idle]] (post_json "[1, 2]")
           ["POST /alert HTTP/1.1"; "Host: alarm"] [] "POST /alert HTTP/1.1"
           "Content-Type: application/json" "[1, 2]" (JList [JInt 1; JInt 2]));
    try reflexivity.
  repeat constructor.
Defined.

(** ** The listener: a request without a content type *)

Lemma getSubstringFromList_from_none (i : Z) (strings : list string) (sub : string) :
  Forall (fun h => Py.contains sub h = false) strings ->
  getSubstringFromList_from i strings sub = -1.
Proof.
  intros H. revert i. induction H as [|h strings Hh _ IH]; intros i; simpl; [reflexivity|].
  now rewrite Hh.
Qed.

(** On a connection that is closed already the JSON step cannot end well:
    whichever way it goes it comes to a [_send] or raises before. *)
Lemma process_json_closed {rt : Runtime} (content : string) (w : world) :
  closed w = true ->
  exists (e : exn) (w' : world) (tail : list event),
    process_json content w = (Raise e, w')
    /\ trace w' = (trace w ++ tail)%list.
Proof.
  intros Hc. unfold process_json.
  destruct (json_loads content) as [d|].
  - unfold bind at 1. unfold set_data at 1.
    unfold bind at 1. unfold get_data at 1. cbn [data].
    unfold bind at 1. unfold lift at 1.
    destruct (subscript d "state") as [v|e];
      [|eexists _, _, []; split; [reflexivity|cbn; now rewrite app_nil_r]].
    unfold bind at 1. destruct (json_eq_str v "alerting").
    + eexists _, _, [Alarm 5000 500 100]. unfold alarm, emit.
      erewrite send_closed by (reflexivity || exact Hc). split; reflexivity.
    + eexists _, _, []. unfold ret.
      erewrite send_closed by (reflexivity || exact Hc).
      split; [reflexivity|cbn; now rewrite app_nil_r].
  - unfold bind at 1. erewrite send_closed by (reflexivity || exact Hc).
    eexists _, _, []. split; [reflexivity|now rewrite app_nil_r].
Qed.

(** X5. A POST, read and split into header lines and a body, none of whose
    header lines holds [Content-Type: ] gets its 400 and its connection
    closed, and then, since that branch does not leave the iteration,
    whatever the locals hold the iteration ends in an exception (after
    driving the buzzer, possibly): the listener stops and the connections
    that follow are never accepted. *)
Theorem listener_stops_after_missing_content_type {rt : Runtime} (w : world)
    (chunks : list string) (conns : list (list string)) (request : string)
    (headers : list string) (first content : string) :
  read_request chunks EmptyString = Ok request ->
  parse_request request = Ok (headers, content) ->
  head headers = Some first ->
  Py.slice_to 4 first = "POST" ->
  Forall (fun h => Py.contains "Content-Type: " h = false) headers ->
  exists (e : exn) (w' : world) (tail : list event),
    listen (chunks :: conns) w = (Raise e, w')
    /\ trace w' = (trace w ++ [Accept; Send status_400; Close] ++ tail)%list
    /\ (content_type w = None -> e = UnboundLocalError /\ tail = []).
Proof.
  intros Hread Hparse Hfirst Hpost Hnone.
  assert (exists e w' tail,
            serve chunks w = (Raise e, w')
            /\ trace w' = (trace w ++ [Accept; Send status_400; Close] ++ tail)%list
            /\ (content_type w = None -> e = UnboundLocalError /\ tail = []))
    as (e & w' & tail & Hserve & Htrace & Hfresh);
    [|exists e, w', tail; split; [now apply listen_raise|now split]].
  rewrite (serve_handle _ _ _ Hread), (handle_parsed _ _ _ _ _ Hparse Hfirst), Hpost.
  replace (negb ("POST" =? "POST")%string) with false by reflexivity.
  unfold process_post, getSubstringFromList.
  rewrite (getSubstringFromList_from_none 0 headers _ Hnone).
  replace (negb (-1 =? -1)) with false by reflexivity.
  unfold bind at 1. erewrite send_open by reflexivity.
  cbn [content_type data closed trace].
  unfold bind at 1. unfold get_content_type at 1. cbn [content_type].
  destruct (content_type w) as [ct|].
  - destruct (negb (String.eqb ct "application/json")).
    + erewrite send_closed by reflexivity. eexists _, _, []. split; [reflexivity|].
      split; [cbn; now rewrite <- app_assoc|discriminate].
    + destruct (process_json_closed content
                  (World (Some ct) (data w) true
                         ((trace w ++ [Accept]) ++ [Send (status_line 400 "Bad Request"); Close]))
                  eq_refl) as (e & w' & tail & Hrun & Htr).
      exists e, w', tail. split; [exact Hrun|]. split; [|discriminate].
      rewrite Htr. cbn [trace]. now rewrite <- !app_assoc.
  - eexists _, _, []. split; [reflexivity|]. split; [cbn; now rewrite <- app_assoc|].
    intros _. now split.
Qed.

Lemma listener_stops_after_missing_content_type_example :
  exists (e : exn) (w' : world) (tail : list event),
    listen [[no_content_type_request]; [post_json body_idle]] boot = (Raise e, w')
    /\ trace w' = ([] ++ [Accept; Send status_400; Close] ++ tail)%list
    /\ (content_type boot = None -> e = UnboundLocalError /\ tail = []).
Proof.
  apply (listener_stops_after_missing_content_type (rt := reference_runtime) boot
           [no_content_type_request] [[post_json body_idle]] no_content_type_request
           ["POST /alert HTTP/1.1"; "Host: alarm"] "POST /alert HTTP/1.1" body_alerting);
    try reflexivity.
  repeat constructor.
Defined.

(** ** The read loop and the split *)

Lemma prefix_app_r (a s t : string) :
  String.prefix a s = true -> String.prefix a (s +:+ t) = true.
Proof.
  revert s. induction a as [|c a IH]; intros s; [intros _; now destruct (s +:+ t)|].
  destruct s as [|d s]; [simpl; discriminate|]. rewrite app_cons. simpl.
  destruct (ascii_dec c d); [apply IH|discriminate].
Qed.


Lemma app_assoc_string (a b c : string) : (a +:+ b) +:+ c = a +:+ (b +:+ c).
Proof. induction a as [|x a IH]; [reflexivity|]. now rewrite !app_cons, IH. Qed.

Lemma app_empty_r (s : string) : s +:+ EmptyString = s.
Proof. induction s as [|c s IH]; [reflexivity|]. now rewrite app_cons, IH. Qed.

(** The two slices of a [str] cut it in two, between two characters. *)
Lemma continuation_split (s : string) :
  Py.continuation s +:+ Py.after_continuation s = s.
Proof.
  induction s as [|c s IH]; [reflexivity|]. cbn [Py.continuation Py.after_continuation].
  destruct (Py.is_continuation c); [now rewrite app_cons, IH|reflexivity].
Qed.

Lemma slice_to_from (n : nat) :
  forall s : string, Py.slice_to n s +:+ Py.slice_from n s = s.
Proof.
  induction n as [|n IH]; intros s; [reflexivity|].
  destruct s as [|c s]; [reflexivity|]. cbn [Py.slice_to Py.slice_from].
  now rewrite app_cons, app_assoc_string, IH, continuation_split.
Qed.

(** In text without a continuation byte, text of one-byte characters,
    the slices count bytes. *)
Lemma slice_one_byte (n : nat) :
  forall s : string,
    one_byte s = true ->
    Py.slice_to n s = String.substring 0 n s /\ Py.slice_from n s = Py.drop n s.
Proof.
  induction n as [|n IH]; intros s Hs; [now destruct s|].
  destruct s as [|c s]; [now split|]. cbn [one_byte] in Hs.
  apply andb_prop in Hs as [_ Hs].
  assert (Py.continuation s = EmptyString /\ Py.after_continuation s = s) as [Hc Ha].
  { destruct s as [|d s]; [now split|]. cbn [one_byte] in Hs.
    apply andb_prop in Hs as [Hd _]. apply negb_true_iff in Hd.
    cbn [Py.continuation Py.after_continuation]. now rewrite Hd. }
  cbn [Py.slice_to Py.slice_from Py.drop String.substring].
  rewrite Hc, Ha. rewrite app_empty_l. destruct (IH s Hs) as [-> ->]. now split.
Qed.

(** A two-byte character counts for one in both slices: the header line
    that begins with an accented letter loses that letter and 13 characters
    more, and the request is answered with 400. *)
Lemma slices_count_characters :
  utf8_check accented_request = true
  /\ Py.slice_to 4 ("caf" +:+ e_acute +:+ "s") = "caf" +:+ e_acute
  /\ Py.slice_from 14 (e_acute +:+ "-Content-Type: application/json") = ": application/json"
  /\ serve [accented_request] boot =
       (Ok tt, World (Some ": application/json") None true [Accept; Send status_400; Close]).
Proof. repeat split; vm_compute; reflexivity. Qed.

Lemma slice_to_cons (n : nat) (c d : ascii) (s : string) :
  Py.is_continuation d = false ->
  Py.slice_to (S n) (String c (String d s)) = String c (Py.slice_to n (String d s)).
Proof.
  intros Hd. cbn [Py.slice_to Py.continuation Py.after_continuation].
  rewrite Hd. now rewrite app_empty_l.
Qed.

(** The method check passes exactly when the first header line starts
    with the characters P, O, S and T: with these four bytes, and no
    continuation byte after them. *)
Lemma method_check_prefix (first : string) :
  Py.slice_to 4 first = "POST"
  <-> exists rest : string, first = "POST" +:+ rest /\ Py.continuation rest = EmptyString.
Proof.
  assert (forall rest,
            Py.slice_to 4 ("POST" +:+ rest) = "POST" +:+ Py.continuation rest) as Hstep.
  { intros rest.
    change ("POST" +:+ rest) with (String "P" (String "O" (String "S" (String "T" rest)))).
    rewrite !slice_to_cons by reflexivity. cbn [Py.slice_to].
    now rewrite app_empty_r. }
  split.
  - intros H. exists (Py.slice_from 4 first).
    pose proof (slice_to_from 4 first) as Hcut. rewrite H in Hcut. split; [now symmetry|].
    rewrite <- Hcut, Hstep in H.
    destruct (Py.continuation (Py.slice_from 4 first)); [reflexivity|discriminate H].
  - intros (rest & -> & Hrest). now rewrite Hstep, Hrest.
Qed.




Lemma length_append (a b : string) :
  String.length (a +:+ b) = (String.length a + String.length b)%nat.
Proof. induction a as [|c a IH]; [reflexivity|]. rewrite app_cons. simpl. now rewrite IH. Qed.

Lemma split_first_Some (sep s a b : string) :
  sep <> EmptyString ->
  split_first sep s = Some (a, b) ->
  s = a +:+ sep +:+ b /\ Py.contains sep a = false.
Proof.
  intros Hsep. revert a. induction s as [|c s IH]; intros a; cbn [split_first].
  - destruct (String.prefix sep EmptyString) eqn:Hp; [|discriminate].
    destruct sep; [congruence|discriminate Hp].
  - destruct (String.prefix sep (String c s)) eqn:Hp.
    + intros [= <- <-]. apply prefix_split in Hp as [_ Heq].
      split; [now rewrite app_empty_l|].
      destruct sep; [congruence|reflexivity].
    + destruct (split_first sep s) as [[a' b']|]; [|discriminate].
      intros [= <- <-]. destruct (IH a' eq_refl) as [Heq Hnone].
      split; [now rewrite app_cons, <- Heq|].
      cbn [Py.contains]. rewrite Hnone, orb_false_r.
      destruct (String.prefix sep (String c a')) eqn:Hp'; [|reflexivity].
      apply (prefix_app_r _ _ (sep +:+ b')) in Hp'.
      rewrite app_cons, <- Heq in Hp'. congruence.
Qed.

(** No piece of a split holds the separator. *)
Lemma split_pieces_clean (sep : string) :
  sep <> EmptyString ->
  forall (n : nat) (s : string),
    (String.length s <= n)%nat ->
    Forall (fun piece => Py.contains sep piece = false) (Py.split sep s).
Proof.
  intros Hsep. induction n as [|n IH]; intros s Hlen; rewrite split_unfold by exact Hsep.
  - destruct s; [|simpl in Hlen; lia].
    destruct (split_first sep EmptyString) as [[a b]|] eqn:Hs.
    + apply split_first_Some in Hs as [Heq _]; [|exact Hsep].
      destruct a; [|discriminate Heq]. rewrite app_empty_l in Heq.
      destruct sep; [congruence|discriminate Heq].
    + constructor; [now apply split_first_none|constructor].
  - destruct (split_first sep s) as [[a b]|] eqn:Hs.
    + apply split_first_Some in Hs as [Heq Hnone]; [|exact Hsep].
      constructor; [exact Hnone|]. apply IH.
      assert (String.length s = String.length a + String.length sep + String.length b)%nat
        as Hl by (rewrite Heq, !length_append; lia).
      destruct sep; [congruence|]. simpl in Hl. lia.
    + constructor; [now apply split_first_none|constructor].
Qed.

(** X7. When the request parses, its text is the header lines joined by
    line terminators, then the blank-line marker, then the content; there is
    at least one header line, no header line holds a line terminator and the
    content holds no blank-line marker. *)
Theorem parsed_request_pieces (request : string) (headers : list string) (content : string) :
  parse_request request = Ok (headers, content) ->
  request = String.concat CRLF headers +:+ BLANK_LINE +:+ content
  /\ headers <> []
  /\ Forall (fun h => Py.contains CRLF h = false) headers
  /\ Py.contains BLANK_LINE content = false.
Proof.
  intros Hparse. split; [now apply parse_request_join|].
  unfold parse_request, unpack2 in Hparse.
  pose proof (split_pieces_clean BLANK_LINE ltac:(discriminate) _ request (le_n _)) as Hclean.
  destruct (Py.split BLANK_LINE request) as [|a [|b [|? ?]]]; try discriminate.
  injection Hparse as <- <-. split; [apply split_go_nonempty|]. split.
  - apply (split_pieces_clean CRLF ltac:(discriminate) _ a (le_n _)).
  - now inversion Hclean as [|? ? _ Hb]; inversion Hb.
Qed.

Lemma parsed_request_pieces_example :
  post_json body_idle =
    String.concat CRLF ["POST /alert HTTP/1.1"; "Host: alarm"; "Content-Type: application/json"]
    +:+ BLANK_LINE +:+ body_idle
  /\ ["POST /alert HTTP/1.1"; "Host: alarm"; "Content-Type: application/json"] <> []
  /\ Forall (fun h => Py.contains CRLF h = false)
            ["POST /alert HTTP/1.1"; "Host: alarm"; "Content-Type: application/json"]
  /\ Py.contains BLANK_LINE body_idle = false.
Proof. exact (parsed_request_pieces (post_json body_idle) _ _ eq_refl). Defined.

(** X8. [getSubstringFromList] returns -1 exactly when no string of the list
    holds the substring; otherwise it returns the position of a string that
    holds it, and no string before that position does. *)
Theorem getSubstringFromList_first (strings : list string) (substring : string) :
  (getSubstringFromList strings substring = -1
   /\ Forall (fun s => Py.contains substring s = false) strings)
  \/ (exists (n : nat) (s : string),
        getSubstringFromList strings substring = Z.of_nat n
        /\ strings !! n = Some s
        /\ Py.contains substring s = true
        /\ Forall (fun s' => Py.contains substring s' = false) (take n strings)).
Proof.
  unfold getSubstringFromList.
  assert (forall i,
            (getSubstringFromList_from i strings substring = -1
             /\ Forall (fun s => Py.contains substring s = false) strings)
            \/ (exists (n : nat) (s : string),
                  getSubstringFromList_from i strings substring = i + Z.of_nat n
                  /\ strings !! n = Some s
                  /\ Py.contains substring s = true
                  /\ Forall (fun s' => Py.contains substring s' = false) (take n strings)))
    as H; [|exact (H 0)].
  induction strings as [|s strings IH]; intros i; simpl.
  - left. split; [reflexivity|constructor].
  - destruct (Py.contains substring s) eqn:Hs.
    + right. exists 0%nat, s. split; [lia|]. split; [reflexivity|]. split; [exact Hs|constructor].
    + destruct (IH (i + 1)) as [[Heq Hall]|(n & s' & Heq & Hlook & Hc & Hall)].
      * left. split; [exact Heq|now constructor].
      * right. exists (S n), s'. split; [lia|]. split; [exact Hlook|]. split; [exact Hc|].
        now constructor.
Qed.

(** The read loop after chunks that decode and do not stop it. *)
Lemma read_request_steps {rt : Runtime} (pre : list string) :
  Forall (fun chunk => utf8_check chunk = true /\ end_of_request chunk = false) pre ->
  forall request : string,
    read_request pre request = Ok (request +:+ String.concat EmptyString pre)
    /\ forall (chunk : string) (rest : list string),
         read_request (pre ++ chunk :: rest) request =
           if utf8_check chunk
           then if end_of_request chunk
                then Ok (request +:+ String.concat EmptyString pre +:+ chunk)
                else read_request rest (request +:+ String.concat EmptyString pre +:+ chunk)
           else Raise UnicodeError.
Proof.
  induction 1 as [|c pre [Hv Hc] _ IH]; intros request.
  - split; [now rewrite app_empty_r|]. intros chunk rest.
    cbn [app read_request String.concat]. unfold decode.
    rewrite app_empty_l. now destruct (utf8_check chunk).
  - assert (String.concat EmptyString (c :: pre) = c +:+ String.concat EmptyString pre) as ->.
    { destruct pre; [now rewrite app_empty_r|reflexivity]. }
    cbn [app read_request]. unfold decode at 1 2. rewrite Hv, Hc.
    destruct (IH (request +:+ c)) as [H1 H2]. split.
    + now rewrite H1, app_assoc_string.
    + intros chunk rest. now rewrite (H2 chunk rest), !app_assoc_string.
Qed.

(** The peer that closes and the peer that sends an empty chunk are read
    alike. *)
Lemma read_request_closed {rt : Runtime} (chunks : list string) :
  forall request : string,
    read_request (chunks ++ [EmptyString]) request = read_request chunks request.
Proof.
  induction chunks as [|chunk chunks IH]; intros request; cbn [app read_request].
  - unfold decode. now rewrite utf8_check_empty, app_empty_r.
  - destruct (decode chunk); [|reflexivity].
    destruct (end_of_request chunk); [reflexivity|apply IH].
Qed.

(** X9. The read loop decodes each chunk on its own and puts the texts
    together in the order of arrival.  After chunks that decode and do not
    stop it: a chunk that does not decode raises [UnicodeError]; a chunk that
    decodes and is empty or holds a line terminator stops the loop, with
    everything up to and including that chunk kept and the chunks after it
    never read; and when the peer closes before any chunk has stopped the
    loop, everything it sent is kept. *)
Theorem read_request_accumulates {rt : Runtime} (pre : list string) :
  Forall (fun chunk => utf8_check chunk = true /\ end_of_request chunk = false) pre ->
  read_request pre EmptyString = Ok (String.concat EmptyString pre)
  /\ forall (chunk : string) (rest : list string),
       read_request (pre ++ chunk :: rest) EmptyString =
         if utf8_check chunk
         then if end_of_request chunk
              then Ok (String.concat EmptyString pre +:+ chunk)
              else read_request rest (String.concat EmptyString pre +:+ chunk)
         else Raise UnicodeError.
Proof.
  intros Hpre. destruct (read_request_steps pre Hpre EmptyString) as [H1 H2].
  split; [now rewrite H1, app_empty_l|].
  intros chunk rest. now rewrite (H2 chunk rest), app_empty_l.
Qed.

Lemma read_request_accumulates_example :
  read_request ["POST /alert "; "HTTP/1.1"] EmptyString = Ok "POST /alert HTTP/1.1"
  /\ read_request (["POST /alert "; "HTTP/1.1"] ++ [CRLF; "Host: alarm"]) EmptyString
     = Ok ("POST /alert HTTP/1.1" +:+ CRLF)
  /\ read_request (["POST /alert "; "HTTP/1.1"] ++ [cut_chunk; CRLF]) EmptyString
     = Raise UnicodeError.
Proof.
  destruct (read_request_accumulates (rt := reference_runtime) ["POST /alert "; "HTTP/1.1"]
              ltac:(repeat constructor)) as [H1 H2].
  split; [exact H1|]. split; [exact (H2 CRLF ["Host: alarm"])|exact (H2 cut_chunk [CRLF])].
Defined.

(** X19. A chunk that the codec does not accept, reached by the read loop
    (the chunks before it decode and do not stop the loop), stops the
    listener: [decode] raises [UnicodeError] with the connection accepted,
    nothing sent and the connection left open, whatever the chunk and the
    chunks after it hold, and the connections that follow are never
    accepted. *)
Theorem undecodable_chunk_stops_listener {rt : Runtime} (w : world) (pre : list string)
    (chunk : string) (rest : list string) (conns : list (list string)) :
  Forall (fun c => utf8_check c = true /\ end_of_request c = false) pre ->
  utf8_check chunk = false ->
  listen ((pre ++ chunk :: rest) :: conns) w =
    (Raise UnicodeError, World (content_type w) (data w) false (trace w ++ [Accept])).
Proof.
  intros Hpre Hbad. apply listen_raise, serve_undecodable.
  destruct (read_request_steps pre Hpre EmptyString) as [_ H].
  now rewrite H, Hbad.
Qed.

Lemma undecodable_chunk_stops_listener_example :
  listen [[junk_request]; [post_json body_idle]] boot =
    (Raise UnicodeError, World None None false [Accept]).
Proof.
  exact (undecodable_chunk_stops_listener (rt := reference_runtime) boot [] junk_request []
           [[post_json body_idle]] ltac:(constructor) eq_refl).
Defined.

(** ** Reading the settings file *)

Lemma prefix_single (c d : ascii) (s : string) :
  String.prefix (String c EmptyString) (String d s) = if ascii_dec c d then true else false.
Proof. simpl. destruct (ascii_dec c d); [now destruct s|reflexivity]. Qed.

Lemma split_first_char (c : ascii) (k t : string) :
  Py.contains (String c EmptyString) k = false ->
  split_first (String c EmptyString) (k +:+ String c t) = Some (k, t).
Proof.
  induction k as [|d k IH]; intros Hk.
  - rewrite app_empty_l. cbn [split_first]. rewrite prefix_single.
    now destruct (ascii_dec c c).
  - rewrite app_cons. cbn [split_first]. cbn [Py.contains] in Hk.
    apply orb_false_iff in Hk as [Hp Hk].
    rewrite prefix_single in Hp |- *. rewrite Hp. now rewrite (IH Hk).
Qed.

Lemma split_no_separator (sep s : string) :
  sep <> EmptyString -> Py.contains sep s = false -> Py.split sep s = [s].
Proof.
  intros Hsep Hnone. rewrite split_unfold by exact Hsep.
  now rewrite (proj2 (split_first_none sep s) Hnone).
Qed.

Lemma read_line_pieces (model : list (string * model_entry)) (st : gmap string value)
    (i key : string) :
  key_of_line i = Ok key ->
  read_line model st i =
    match assoc key model with
    | Some _ =>
        match value_of_line i with
        | Ok v => Ok (<[key := VStr v]> st)
        | Raise e => Raise e
        end
    | None => Ok st
    end.
Proof. unfold key_of_line, value_of_line, clean_line, read_line. now intros ->. Qed.

Lemma key_of_line_total (i : string) : exists key, key_of_line i = Ok key.
Proof.
  unfold key_of_line, Py.split.
  pose proof (split_go_nonempty "=" 0 (clean_line i)) as Hne.
  destruct (Py.split_go "=" 0 (clean_line i)) as [|key ?]; [congruence|]. now exists key.
Qed.

Lemma read_lines_app (model : list (string * model_entry)) (a b : list string) :
  forall st : gmap string value,
    read_lines model st (a ++ b) =
      match read_lines model st a with
      | Ok st' => read_lines model st' b
      | Raise e => Raise e
      end.
Proof.
  induction a as [|i a IH]; intros st; simpl; [reflexivity|].
  destruct (read_line model st i); [apply IH|reflexivity].
Qed.

(** X10. The value of a setting is the text between the first and the
    second [=] of its line: what follows a second [=] is dropped, so a value
    cannot hold that character. *)
Theorem line_value_is_second_piece (model : list (string * model_entry))
    (st : gmap string value) (i k v tail : string) (m : model_entry) :
  assoc k model = Some m ->
  Py.contains "=" k = false ->
  Py.contains "=" v = false ->
  tail = EmptyString \/ (exists rest, tail = "=" +:+ rest) ->
  clean_line i = k +:+ "=" +:+ v +:+ tail ->
  read_line model st i = Ok (<[k := VStr v]> st).
Proof.
  intros Hm Hk Hv Htail Hline.
  assert (Py.split "=" (clean_line i) = k :: v :: match tail with
                                                  | EmptyString => []
                                                  | String _ rest => Py.split "=" rest
                                                  end) as Hsplit.
  { rewrite Hline, split_unfold by discriminate.
    change ("=" +:+ v +:+ tail) with (String "=" (v +:+ tail)).
    rewrite (split_first_char "=" k _ Hk). f_equal.
    destruct Htail as [->|[rest ->]].
    - rewrite app_empty_r. now apply split_no_separator.
    - rewrite split_unfold by discriminate.
      change ("=" +:+ rest) with (String "=" rest).
      now rewrite (split_first_char "=" v _ Hv). }
  rewrite (read_line_pieces model st i k); unfold key_of_line, value_of_line;
    rewrite Hsplit; [now rewrite Hm|reflexivity].
Qed.

Lemma line_value_is_second_piece_example :
  read_line settings_model ∅ ("KEY=pass=word" +:+ CRLF) = Ok (<["KEY" := VStr "pass"]> ∅).
Proof.
  apply (line_value_is_second_piece settings_model ∅ ("KEY=pass=word" +:+ CRLF)
           "KEY" "pass" "=word" (Entry t_str true None VNone None));
    try reflexivity.
  right. now exists "word".
Defined.

Lemma read_line_other (model : list (string * model_entry)) (st st' : gmap string value)
    (i key k : string) :
  key_of_line i = Ok key ->
  key <> k ->
  read_line model st i = Ok st' ->
  st' !! k = st !! k.
Proof.
  intros Hkey Hne. rewrite (read_line_pieces model st i key Hkey).
  destruct (assoc key model); [|now intros [= <-]].
  destruct (value_of_line i); [|discriminate].
  intros [= <-]. now apply lookup_insert_ne.
Qed.

(** X11. When a key of the schema occurs on several lines, the last line
    decides: after the file is read the dictionary holds, under a key, the
    value of the last line with that key. *)
Theorem last_line_of_a_key_wins (model : list (string * model_entry))
    (pre post : list string) (i k v : string) (st raw : gmap string value) :
  read_lines model st (pre ++ i :: post) = Ok raw ->
  key_of_line i = Ok k ->
  value_of_line i = Ok v ->
  is_Some (assoc k model) ->
  Forall (fun j => key_of_line j <> Ok k) post ->
  raw !! k = Some (VStr v).
Proof.
  intros Hread Hkey Hval [m Hm] Hpost.
  rewrite read_lines_app in Hread.
  destruct (read_lines model st pre) as [st1|]; [|discriminate].
  cbn [read_lines] in Hread.
  rewrite (read_line_pieces model st1 i k Hkey), Hm, Hval in Hread.
  remember (<[k := VStr v]> st1) as st2 eqn:Hst2.
  assert (st2 !! k = Some (VStr v)) as Hlook by (subst; apply lookup_insert_eq).
  clear Hst2. revert st2 Hread Hlook.
  induction Hpost as [|j post Hj _ IH]; intros st2; simpl.
  - now intros [= <-].
  - destruct (read_line model st2 j) as [st3|] eqn:Hline; [|discriminate].
    intros Hread Hlook. apply (IH st3 Hread).
    destruct (key_of_line_total j) as [kj Hkj].
    rewrite (read_line_other model st2 st3 j kj k Hkj); [exact Hlook| |exact Hline].
    intros ->. now apply Hj.
Qed.

Lemma last_line_of_a_key_wins_example :
  raw_ports !! "PORT" = Some (VStr "8080").
Proof.
  apply (last_line_of_a_key_wins settings_model ["PORT=80"] ["SSID=net"] "PORT=8080"
           "PORT" "8080" ∅ raw_ports); try reflexivity.
  - now eexists.
  - repeat constructor. discriminate.
Defined.

(** X12. A line that is a key of the schema with no [=] after it makes
    [readSettings] raise [IndexError]: an exception that is not caught, not a
    fatal log entry. *)
Theorem key_line_without_value_raises_IndexError {rt : Runtime} (pre post : list string)
    (i : string) (st : gmap string value) :
  read_lines settings_model ∅ pre = Ok st ->
  is_Some (assoc (clean_line i) settings_model) ->
  Py.contains "=" (clean_line i) = false ->
  readSettings (Some (pre ++ i :: post)) = Raise IndexError.
Proof.
  intros Hpre [m Hm] Hnone. unfold readSettings.
  rewrite read_lines_app, Hpre. cbn [read_lines].
  rewrite (read_line_pieces settings_model st i (clean_line i));
    unfold key_of_line, value_of_line;
    rewrite (split_no_separator "=" _ ltac:(discriminate) Hnone); [|reflexivity].
  now rewrite Hm.
Qed.

Lemma key_line_without_value_raises_IndexError_example :
  readSettings (Some (["SSID=net"] ++ "KEY" :: ["PORT=80"])) = Raise IndexError.
Proof.
  apply (key_line_without_value_raises_IndexError (rt := reference_runtime)
           ["SSID=net"] ["PORT=80"] "KEY" (<["SSID" := VStr "net"]> ∅)); try reflexivity.
  now eexists.
Defined.

(** X13. A line whose first piece is not a key of the schema (a setting of
    another program, a comment, an empty line) changes nothing: the file
    reads as if the line were not there. *)
Theorem unknown_line_changes_nothing {rt : Runtime} (pre post : list string) (i key : string) :
  key_of_line i = Ok key ->
  assoc key settings_model = None ->
  readSettings (Some (pre ++ i :: post)) = readSettings (Some (pre ++ post)).
Proof.
  intros Hkey Hnone. unfold readSettings. rewrite !read_lines_app.
  destruct (read_lines settings_model ∅ pre) as [st|]; [|reflexivity].
  cbn [read_lines]. now rewrite (read_line_pieces settings_model st i key Hkey), Hnone.
Qed.

Lemma unknown_line_changes_nothing_example :
  readSettings (Some (["SSID=net"] ++ String Py.LF EmptyString :: ["KEY=secret"]))
  = readSettings (Some (["SSID=net"] ++ ["KEY=secret"])).
Proof.
  exact (unknown_line_changes_nothing (rt := reference_runtime) ["SSID=net"] ["KEY=secret"]
           (String Py.LF EmptyString) EmptyString eq_refl eq_refl).
Defined.

(** ** Validating the settings *)

Section Checks.
Context {rt : Runtime}.

Lemma validate_app (a b : list (string * model_entry)) :
  forall st : gmap string value,
    validate (a ++ b) st =
      match validate a st with
      | Ok st' => validate b st'
      | Raise e => Raise e
      end.
Proof.
  induction a as [|[i m] a IH]; intros st; simpl; [reflexivity|].
  destruct (validate_entry i m st); [apply IH|reflexivity].
Qed.

(** What an iteration that stores a value has checked. *)
Lemma validate_entry_checked (i : string) (m : model_entry) (st st' : gmap string value) :
  validate_entry i m st = Ok st' ->
  match st !! i with
  | Some (VStr text) =>
      is_Some (coerce (e_type m) text)
      /\ forall pattern, e_regex m = Some pattern -> e_type m = t_str ->
                         re_match pattern text = true
  | Some _ => False
  | None =>
      e_required m = false
      /\ forall other, e_required_if m = Some other -> other <> EmptyString ->
                       exists v, st !! other = Some v /\ truthy v = false
  end.
Proof.
  unfold validate_entry, fatal.
  destruct (st !! i) as [[| | |text]|]; try discriminate.
  - destruct (e_regex m) as [pattern|].
    + destruct (e_type m); cbn [type_eqb andb].
      * destruct (re_match pattern text) eqn:Hre; cbn [negb]; [|discriminate].
        intros _. split; [now eexists|]. now intros ? [= <-] _.
      * destruct (coerce t_int text) as [v|]; [|discriminate].
        intros _. split; [now eexists|]. discriminate.
      * intros _. split; [now eexists|]. discriminate.
    + destruct (coerce (e_type m) text) as [v|]; [|discriminate].
      intros _. split; [now eexists|]. discriminate.
  - destruct (e_required m); [discriminate|]. intros H. split; [reflexivity|].
    intros other Hif Hne. rewrite Hif in H.
    apply String.eqb_neq in Hne. rewrite Hne in H. cbn [negb] in H.
    destruct (st !! other) as [v|]; [|discriminate].
    destruct (truthy v) eqn:Hv; [discriminate|]. now exists v.
Qed.

(** Every entry of the schema is checked against what the file supplied
    for it, whatever the entries before it stored. *)
Lemma validate_checked (pre post : list (string * model_entry)) (i : string)
    (m : model_entry) (st cfg : gmap string value) :
  NoDup (pre ++ (i, m) :: post).*1 ->
  validate (pre ++ (i, m) :: post) st = Ok cfg ->
  exists st1 st2 : gmap string value,
    validate pre st = Ok st1
    /\ validate_entry i m st1 = Ok st2
    /\ validate post st2 = Ok cfg
    /\ st1 !! i = st !! i
    /\ (forall k, k ∈ pre.*1 -> cfg !! k = st1 !! k).
Proof.
  intros Hnd Hval. rewrite validate_app in Hval.
  destruct (validate pre st) as [st1|] eqn:Hpre; [|discriminate].
  cbn [validate] in Hval.
  destruct (validate_entry i m st1) as [st2|] eqn:Hstep; [|discriminate].
  exists st1, st2. split; [reflexivity|]. split; [exact Hstep|]. split; [exact Hval|].
  rewrite fmap_app, fmap_cons in Hnd. cbn [fst] in Hnd.
  apply NoDup_app in Hnd as (Hpre_nd & Hdisj & Hrest).
  apply NoDup_cons in Hrest as [Hi Hpost_nd].
  destruct (validate_ok pre Hpre_nd _ _ Hpre) as (_ & Hother & _).
  split.
  - apply Hother. intros Hin. apply (Hdisj i Hin). now left.
  - intros k Hk.
    destruct (validate_ok post Hpost_nd _ _ Hval) as (_ & Hpost_other & _).
    rewrite Hpost_other by (intros Hin; apply (Hdisj k Hk); now right).
    apply validate_entry_ok in Hstep as (v & -> & _).
    apply lookup_insert_ne. intros ->. apply (Hdisj k Hk). now left.
Qed.

End Checks.

(** After the file is read, validation either returns a configuration or
    exits: the key that a [required_if] names is in the dictionary when it is
    looked up, since the schema declares STATIC before the entries that refer
    to it. *)
Lemma validate_outcomes {rt : Runtime} (lines : list string) (raw : gmap string value) :
  read_lines settings_model ∅ lines = Ok raw ->
  (exists cfg, validate settings_model raw = Ok cfg)
  \/ (exists r, validate settings_model raw = Raise (SystemExit r)).
Proof.
  intros Hread.
  destruct (read_lines_raw _ _ _ _ Hread) as [Hraw _];
    [apply map_Forall_empty|rewrite dom_empty; apply empty_subseteq|].
  unfold settings_model. do 10 step_cases Hraw. left. now eexists.
Qed.

Lemma read_lines_outcomes (model : list (string * model_entry)) (lines : list string) :
  forall st : gmap string value,
    (exists raw, read_lines model st lines = Ok raw)
    \/ read_lines model st lines = Raise IndexError.
Proof.
  induction lines as [|i lines IH]; intros st; simpl; [left; now eexists|].
  destruct (key_of_line_total i) as [key Hkey].
  rewrite (read_line_pieces model st i key Hkey).
  destruct (assoc key model); [|apply IH].
  unfold value_of_line, Py.index. cbn [Z.ltb Z.compare].
  destruct (_ !! Z.to_nat 1); [apply IH|now right].
Qed.

(** X14. Whatever the file holds, [readSettings] ends in one of three
    ways: it returns a configuration, it exits through [fatal], or it raises
    [IndexError] (on a key line without a value).  In particular the lookup
    of the key named by [required_if] never raises [KeyError]. *)
Theorem readSettings_outcomes {rt : Runtime} (lines : list string) :
  (exists cfg, readSettings (Some lines) = Ok cfg)
  \/ (exists r, readSettings (Some lines) = Raise (SystemExit r))
  \/ readSettings (Some lines) = Raise IndexError.
Proof.
  unfold readSettings.
  destruct (read_lines_outcomes settings_model lines ∅) as [[raw Hread]| ->];
    [|now right; right].
  rewrite Hread. destruct (validate_outcomes lines raw Hread) as [H|H]; [now left|now right; left].
Qed.

(** X15. SSID and KEY are required.  For a file that the reading loop gets
    through (no line is a key of the schema with nothing after it): when the
    file leaves SSID out, [readSettings] exits with the fatal entry for SSID,
    and when it has SSID and leaves KEY out, with the one for KEY, whatever
    the other settings of the file are. *)
Theorem required_settings_missing {rt : Runtime} (lines : list string)
    (raw : gmap string value) :
  read_lines settings_model ∅ lines = Ok raw ->
  (raw !! "SSID" = None ->
   readSettings (Some lines) = Raise (SystemExit (RequiredMissing "SSID")))
  /\ (is_Some (raw !! "SSID") -> raw !! "KEY" = None ->
      readSettings (Some lines) = Raise (SystemExit (RequiredMissing "KEY"))).
Proof.
  intros Hread.
  destruct (read_lines_raw _ _ _ _ Hread) as [Hraw _];
    [apply map_Forall_empty|rewrite dom_empty; apply empty_subseteq|].
  unfold readSettings. rewrite Hread. unfold settings_model. split.
  - intros Hssid. rewrite validate_cons. unfold validate_entry. now rewrite Hssid.
  - intros [v Hssid] Hkey. destruct (Hraw _ _ Hssid) as [text ->].
    rewrite validate_cons. unfold validate_entry at 1. rewrite Hssid. cbn.
    unfold validate_entry. rewrite lookup_insert_ne by discriminate. now rewrite Hkey.
Qed.

Lemma required_settings_missing_example :
  readSettings (Some lines_static_only) = Raise (SystemExit (RequiredMissing "SSID"))
  /\ readSettings (Some ["SSID=net"]) = Raise (SystemExit (RequiredMissing "KEY")).
Proof.
  split.
  - exact (proj1 (required_settings_missing (rt := reference_runtime) lines_static_only
                    raw_static_only eq_refl) eq_refl).
  - exact (proj2 (required_settings_missing (rt := reference_runtime) ["SSID=net"]
                    (<["SSID" := VStr "net"]> ∅) eq_refl)
                 (ex_intro _ (VStr "net") eq_refl) eq_refl).
Defined.

(** What validation leaves under a key of the schema, with the checks that
    the key went through on the way. *)
Lemma validated_entry {rt : Runtime} (pre post : list (string * model_entry)) (k : string)
    (m : model_entry) (raw cfg : gmap string value) :
  settings_model = pre ++ (k, m) :: post ->
  (forall other, e_required_if m = Some other -> other ∈ pre.*1) ->
  validate settings_model raw = Ok cfg ->
  exists v, cfg !! k = Some v
    /\ match raw !! k with
       | Some (VStr text) =>
           coerce (e_type m) text = Some v
           /\ forall pattern, e_regex m = Some pattern -> e_type m = t_str ->
                              re_match pattern text = true
       | Some _ => False
       | None =>
           v = e_default m /\ e_required m = false
           /\ forall other, e_required_if m = Some other -> other <> EmptyString ->
                            exists b, cfg !! other = Some b /\ truthy b = false
       end.
Proof.
  intros Hmodel Hbefore Hval.
  destruct (validate_ok settings_model settings_model_NoDup raw cfg Hval) as (_ & _ & Hin).
  destruct (Hin k m) as (v & Hv & Hstored); [rewrite Hmodel; apply elem_of_app; right; apply elem_of_cons; now left|].
  exists v. split; [exact Hv|].
  pose proof settings_model_NoDup as Hnd. rewrite Hmodel in Hnd, Hval.
  destruct (validate_checked _ _ _ _ _ _ Hnd Hval) as (st1 & st2 & _ & Hstep & _ & Hk & Hkeep).
  apply validate_entry_checked in Hstep. rewrite Hk in Hstep. unfold stored in Hstored.
  destruct (raw !! k) as [[| | |text]|]; try contradiction.
  - destruct Hstep as [_ Hre]. now split.
  - destruct Hstep as [Hreq Hcond]. split; [exact Hstored|]. split; [exact Hreq|].
    intros other Hother Hne. destruct (Hcond other Hother Hne) as (b & Hb & Htruth).
    exists b. split; [|exact Htruth]. now rewrite (Hkeep other (Hbefore other Hother)).
Qed.

Lemma conditional_entry_supplied {rt : Runtime} (pre post : list (string * model_entry))
    (k : string) (pattern : option string) (raw cfg : gmap string value) :
  settings_model = pre ++ (k, Entry t_str false (Some "STATIC") VNone pattern) :: post ->
  "STATIC" ∈ pre.*1 ->
  validate settings_model raw = Ok cfg ->
  cfg !! "STATIC" = Some (VBool true) ->
  exists text, cfg !! k = Some (VStr text)
    /\ forall p, pattern = Some p -> re_match p text = true.
Proof.
  intros Hmodel Hstatic Hval Hon.
  destruct (validated_entry pre post k _ raw cfg Hmodel) as (v & Hv & Hcase);
    [now intros other [= <-]|exact Hval|].
  cbn [e_type e_required e_required_if e_default e_regex coerce] in Hcase.
  destruct (raw !! k) as [[| | |text]|]; try contradiction.
  - destruct Hcase as [[= <-] Hre]. exists text. split; [exact Hv|].
    intros p ->. now apply Hre.
  - destruct Hcase as (_ & _ & Hcond).
    destruct (Hcond "STATIC" eq_refl) as (b & Hb & Htruth); [discriminate|].
    rewrite Hon in Hb. injection Hb as <-. discriminate.
Qed.

(** X16. A configuration that [readSettings] returns with STATIC true is
    complete for a static address: ADDR, MASK, GATEWAY and ADDR_FAMILY each
    hold text of the file (not [None]), and the text of ADDR_FAMILY matched
    its pattern. *)
Theorem static_configuration_is_complete {rt : Runtime} (lines : list string)
    (cfg : gmap string value) :
  readSettings (Some lines) = Ok cfg ->
  cfg !! "STATIC" = Some (VBool true) ->
  Forall (fun k => exists text, cfg !! k = Some (VStr text)) ["ADDR"; "MASK"; "GATEWAY"]
  /\ exists name, cfg !! "ADDR_FAMILY" = Some (VStr name)
                  /\ re_match "^(INET|INET6)$" name = true.
Proof.
  intros Hrun Hon. apply readSettings_inv in Hrun as (raw & _ & _ & Hval).
  assert ("STATIC" ∈ (take 6 settings_model).*1) as H6
    by (apply list_elem_of_In; cbn; auto 20).
  assert ("STATIC" ∈ (take 7 settings_model).*1) as H7
    by (apply list_elem_of_In; cbn; auto 20).
  assert ("STATIC" ∈ (take 8 settings_model).*1) as H8
    by (apply list_elem_of_In; cbn; auto 20).
  assert ("STATIC" ∈ (take 9 settings_model).*1) as H9
    by (apply list_elem_of_In; cbn; auto 20).
  split.
  - repeat constructor.
    + destruct (conditional_entry_supplied (take 6 settings_model) (drop 7 settings_model)
                  "ADDR" None raw cfg eq_refl H6 Hval Hon) as (text & Ht & _). now exists text.
    + destruct (conditional_entry_supplied (take 7 settings_model) (drop 8 settings_model)
                  "MASK" None raw cfg eq_refl H7 Hval Hon) as (text & Ht & _). now exists text.
    + destruct (conditional_entry_supplied (take 8 settings_model) (drop 9 settings_model)
                  "GATEWAY" None raw cfg eq_refl H8 Hval Hon) as (text & Ht & _). now exists text.
  - destruct (conditional_entry_supplied (take 9 settings_model) (drop 10 settings_model)
                "ADDR_FAMILY" (Some "^(INET|INET6)$") raw cfg eq_refl H9 Hval Hon)
      as (name & Hn & Hre).
    exists name. split; [exact Hn|]. now apply Hre.
Qed.

Lemma static_configuration_is_complete_example :
  Forall (fun k => exists text, cfg_static_full !! k = Some (VStr text))
         ["ADDR"; "MASK"; "GATEWAY"]
  /\ exists name, cfg_static_full !! "ADDR_FAMILY" = Some (VStr name)
                  /\ Reference.matches "^(INET|INET6)$" name = true.
Proof.
  exact (static_configuration_is_complete (rt := reference_runtime) lines_static_full
           cfg_static_full eq_refl eq_refl).
Defined.

(** X17. For a file that the reading loop gets through (no line is a key
    of the schema with nothing after it), a value that fails the check of
    its key makes [readSettings] exit through [fatal]: text that does not
    convert to the type of the key, or text of a string key that does not
    match the pattern of the key.  No configuration is returned, whatever the
    other settings of the file are. *)
Theorem rejected_value_exits {rt : Runtime} (lines : list string) (raw : gmap string value)
    (i : string) (m : model_entry) (text : string) :
  read_lines settings_model ∅ lines = Ok raw ->
  (i, m) ∈ settings_model ->
  raw !! i = Some (VStr text) ->
  coerce (e_type m) text = None
  \/ (e_type m = t_str /\ exists p, e_regex m = Some p /\ re_match p text = false) ->
  exists r, readSettings (Some lines) = Raise (SystemExit r).
Proof.
  intros Hread Hin Hraw Hbad. unfold readSettings. rewrite Hread.
  destruct (validate_outcomes lines raw Hread) as [[cfg Hval]|H]; [exfalso|exact H].
  apply list_elem_of_split in Hin as (pre & post & Hmodel).
  pose proof settings_model_NoDup as Hnd. rewrite Hmodel in Hnd, Hval.
  destruct (validate_checked _ _ _ _ _ _ Hnd Hval) as (st1 & st2 & _ & Hstep & _ & Hi & _).
  apply validate_entry_checked in Hstep. rewrite Hi, Hraw in Hstep.
  destruct Hstep as [[v Hco] Hre].
  destruct Hbad as [Hnone|(Ht & p & Hp & Hno)]; [congruence|].
  rewrite (Hre p Hp Ht) in Hno. discriminate.
Qed.

Lemma rejected_value_exits_example :
  exists r, readSettings (Some lines_bad_port) = Raise (SystemExit r).
Proof.
  apply (rejected_value_exits (rt := reference_runtime) lines_bad_port raw_bad_port
           "PORT" (Entry t_int false None (VInt 80) None) "eighty"); try reflexivity.
  - apply list_elem_of_In. cbn. auto 20.
  - now left.
Defined.

(** ** Start-up *)

Ltac entry_cases k raw H :=
  cbn [e_type e_required e_required_if e_default e_regex coerce] in H;
  destruct (raw !! k) as [[| | |?]|]; try contradiction.

(** The types of a validated configuration: text under SSID and KEY,
    integers under MAX_CON, TIMEOUT and PORT, a truth value under STATIC,
    and text or [None] under the four keys of the static address, text when
    STATIC is true. *)
Lemma validated_types {rt : Runtime} (raw cfg : gmap string value) :
  validate settings_model raw = Ok cfg ->
  Forall (fun k => exists s, cfg !! k = Some (VStr s)) ["SSID"; "KEY"]
  /\ Forall (fun k => exists n, cfg !! k = Some (VInt n)) ["MAX_CON"; "TIMEOUT"; "PORT"]
  /\ exists b, cfg !! "STATIC" = Some (VBool b)
       /\ Forall (fun k => exists v, cfg !! k = Some v /\ text_or_None v
                                    /\ (b = true -> is_raw v))
                 ["ADDR"; "MASK"; "GATEWAY"; "ADDR_FAMILY"].
Proof.
  intros Hval.
  assert (forall n k,
            settings_model !! n = Some (k, Entry t_str true None VNone None) ->
            exists s, cfg !! k = Some (VStr s)) as Hstr.
  { intros n k Hn. apply take_drop_middle in Hn.
    destruct (validated_entry (take n settings_model) (drop (S n) settings_model) k _ raw cfg
                (eq_sym Hn)) as (v & Hv & Hcase); [intros other [=]|exact Hval|].
    entry_cases k raw Hcase.
    - destruct Hcase as [[= <-] _]. eexists; exact Hv.
    - now destruct Hcase as (_ & [=] & _). }
  assert (forall n k d,
            settings_model !! n = Some (k, Entry t_int false None (VInt d) None) ->
            exists z, cfg !! k = Some (VInt z)) as Hint.
  { intros n k d Hn. apply take_drop_middle in Hn.
    destruct (validated_entry (take n settings_model) (drop (S n) settings_model) k _ raw cfg
                (eq_sym Hn)) as (v & Hv & Hcase); [intros other [=]|exact Hval|].
    entry_cases k raw Hcase.
    - destruct Hcase as [Hco _]. destruct (int_of_str _) as [z|]; [|discriminate].
      injection Hco as <-. eexists; exact Hv.
    - destruct Hcase as (-> & _). eexists; exact Hv. }
  assert (exists b, cfg !! "STATIC" = Some (VBool b)) as [b Hb].
  { destruct (validated_entry (take 5 settings_model) (drop 6 settings_model) "STATIC" _ raw cfg
                eq_refl) as (v & Hv & Hcase); [intros other [=]|exact Hval|].
    entry_cases "STATIC" raw Hcase.
    - destruct Hcase as [[= <-] _]. eexists; exact Hv.
    - destruct Hcase as (-> & _). eexists; exact Hv. }
  assert (forall n k pattern,
            (5 < n)%nat ->
            settings_model !! n = Some (k, Entry t_str false (Some "STATIC") VNone pattern) ->
            exists v, cfg !! k = Some v /\ text_or_None v /\ (b = true -> is_raw v)) as Hopt.
  { intros n k pattern Hlt Hn. apply take_drop_middle in Hn.
    destruct (validated_entry (take n settings_model) (drop (S n) settings_model) k _ raw cfg
                (eq_sym Hn)) as (v & Hv & Hcase); [|exact Hval|].
    { intros other [= <-].
      apply (list_elem_of_fmap_2' fst _
               ("STATIC", Entry t_bool false None (VBool false) (Some "^(TRUE|FALSE)$")));
        [|reflexivity].
      apply (list_elem_of_lookup_2 _ 5%nat). rewrite lookup_take_lt by exact Hlt. reflexivity. }
    exists v. split; [exact Hv|]. entry_cases k raw Hcase.
    - destruct Hcase as [[= <-] _]. split; [right|intros _]; now eexists.
    - destruct Hcase as (-> & _ & Hcond). split; [now left|]. intros ->.
      destruct (Hcond "STATIC" eq_refl) as (b' & Hb' & Htruth); [discriminate|].
      rewrite Hb in Hb'. injection Hb' as <-. discriminate. }
  split; [|split].
  - repeat constructor; [apply (Hstr 0%nat)|apply (Hstr 1%nat)]; reflexivity.
  - repeat constructor; [eapply (Hint 2%nat)|eapply (Hint 3%nat)|eapply (Hint 4%nat)];
      reflexivity.
  - exists b. split; [exact Hb|].
    repeat constructor;
      [eapply (Hopt 6%nat)|eapply (Hopt 7%nat)|eapply (Hopt 8%nat)|eapply (Hopt 9%nat)];
      first [lia|reflexivity].
Qed.

(** X18. Once [readSettings] has returned, [main] goes on without an
    exception: each of its ten subscripts finds its key.  [initWLAN] is called
    with text for the SSID and the key, an integer timeout and a truth value
    for [static], and with text or [None] for the address, mask and gateway,
    text when [static] is true; if it returns false [main] exits, and
    otherwise the server is built with an integer port, an integer number of
    connections and an address family that is text or [None]. *)
Theorem main_arguments_typed {rt : Runtime} (lines : list string) (cfg : gmap string value)
    (initWLAN : wlan_args -> bool) :
  readSettings (Some lines) = Ok cfg ->
  exists (ssid key : string) (timeout port max_con : Z) (static : bool)
         (ip mask gateway addr_family : value),
    main (Some lines) initWLAN =
      (if initWLAN (WlanArgs (VStr ssid) (VStr key) (VInt timeout) (VBool static)
                             ip mask gateway)
       then Serving (HttpArgs (VInt port) (VInt max_con) addr_family)
       else NoNetwork)
    /\ Forall text_or_None [ip; mask; gateway; addr_family]
    /\ (static = true -> Forall is_raw [ip; mask; gateway; addr_family]).
Proof.
  intros Hrun. unfold main. rewrite Hrun.
  apply readSettings_inv in Hrun as (raw & _ & _ & Hval).
  destruct (validated_types raw cfg Hval) as (Hstr & Hint & static & Hstatic & Hopt).
  apply Forall_cons in Hstr as [[ssid Hssid] Hstr].
  apply Forall_cons in Hstr as [[key Hkey] _].
  apply Forall_cons in Hint as [[max_con Hmax] Hint].
  apply Forall_cons in Hint as [[timeout Htimeout] Hint].
  apply Forall_cons in Hint as [[port Hport] _].
  apply Forall_cons in Hopt as [(ip & Hip & Hip1 & Hip2) Hopt].
  apply Forall_cons in Hopt as [(mask & Hmask & Hmask1 & Hmask2) Hopt].
  apply Forall_cons in Hopt as [(gateway & Hgw & Hgw1 & Hgw2) Hopt].
  apply Forall_cons in Hopt as [(family & Hfam & Hfam1 & Hfam2) _].
  exists ssid, key, timeout, port, max_con, static, ip, mask, gateway, family.
  split; [|split].
  - unfold wlan_arguments, http_arguments, setting.
    rewrite Hssid, Hkey, Htimeout, Hstatic, Hip, Hmask, Hgw, Hport, Hmax, Hfam.
    cbn [and_then]. now destruct (initWLAN _).
  - repeat (apply Forall_cons; split; [assumption|]). constructor.
  - intros Hon. repeat (apply Forall_cons; split; [auto|]). constructor.
Qed.

Lemma main_arguments_typed_example :
  exists (ssid key : string) (timeout port max_con : Z) (static : bool)
         (ip mask gateway addr_family : value),
    main (rt := reference_runtime) (Some lines_static_full) (fun _ => true) =
      Serving (HttpArgs (VInt port) (VInt max_con) addr_family)
    /\ Forall text_or_None [ip; mask; gateway; addr_family]
    /\ (static = true -> Forall is_raw [ip; mask; gateway; addr_family]).
Proof.
  exact (main_arguments_typed (rt := reference_runtime) lines_static_full cfg_static_full
           (fun _ => true) eq_refl).
Defined.
